(** * LF1: the Lex code hook of the Dining Concierge

    A shallow embedding of [Lambda Functions/LF1.py] and the properties of
    its slot validator, its three response builders and its dining flow.

    Layout:
    - [Py]: the Python builtins and library calls the handler relies on
      ([str.lower], [in], [int], [re.match], [datetime.strptime], date
      comparison), on ASCII text;
    - the records exchanged with Lex and SQS, and [Env], what the handler
      reads from outside (clock, environment variable, dateutil, boto3);
    - [LF1]: the functions of the source file, one definition each, with
      the same names; a call that may raise returns a [Result], and the
      requests handed to the queue are threaded through as a list;
    - [Sample]: events and an environment to run the definitions on;
    - [Rules]: the rules of the validator as the design words them;
    - the properties: builtins, validator, handlers, then one theorem per
      claim. *)

From Stdlib Require Import ZArith Ascii String List Bool Lia.
From stdpp Require Import gmap strings.

Import ListNotations.
Local Open Scope string_scope.
Local Open Scope Z_scope.

(** ** Exceptions and results *)

(** The exceptions that can leave a call.  [OtherError] stands for any
    exception class that is not a [ValueError] (dateutil documents
    [OverflowError]; boto3 raises its own classes). *)
Inductive exn : Type :=
| ValueError
| KeyError (key : string)
| OtherError (name : string).

Inductive Result (A : Type) : Type :=
| Ok (a : A)
| Raise (e : exn).
Arguments Ok {A} a.
Arguments Raise {A} e.

Definition bind {A B : Type} (r : Result A) (k : A -> Result B) : Result B :=
  match r with
  | Ok a => k a
  | Raise e => Raise e
  end.

(** A statement inside a function body either raises, executes [return r]
    ([Ok (Some r)]) or falls through to the next statement ([Ok None]). *)
Definition Stmt (R : Type) : Type := Result (option R).

Definition pass {R : Type} : Stmt R := Ok None.
Definition return_ {R : Type} (r : R) : Stmt R := Ok (Some r).

(** [s ;> rest]: run statement [s]; unless it returned or raised, go on
    with the rest of the body. *)
Definition then_ {R : Type} (s : Stmt R) (rest : Result R) : Result R :=
  match s with
  | Raise e => Raise e
  | Ok (Some r) => Ok r
  | Ok None => rest
  end.

Declare Scope py_scope.
Delimit Scope py_scope with py.
Notation "'let*' x ':=' r 'in' k" := (bind r (fun x => k))
  (at level 10, x name, r at level 100, k at level 200) : py_scope.
Notation "s ;> rest" := (then_ s rest)
  (at level 100, rest at level 200, right associativity) : py_scope.
Local Open Scope py_scope.

Definition is_ok {A : Type} (r : Result A) : bool :=
  match r with Ok _ => true | Raise _ => false end.

(** ** Python builtins, on ASCII text *)

Module Py.

(** Strings are sequences of 8-bit characters, read as ASCII text: a
    character of code 128 or more is no letter, no digit and no blank
    here. *)

Definition code (c : ascii) : Z := Z.of_N (N_of_ascii c).

Definition between (lo hi : Z) (c : ascii) : bool :=
  (lo <=? code c) && (code c <=? hi).

(** *** [str.lower] and [x in list] *)

Definition lower_char (c : ascii) : ascii :=
  if between 65 90 c then ascii_of_N (N_of_ascii c + 32) else c.

Fixpoint lower (s : string) : string :=
  match s with
  | EmptyString => EmptyString
  | String c s' => String (lower_char c) (lower s')
  end.

Definition contains (l : list string) (x : string) : bool :=
  existsb (String.eqb x) l.

(** *** [int(str)] in base 10 *)

Definition is_space (c : ascii) : bool :=
  between 9 13 c || between 28 32 c.

Definition digit_of (c : ascii) : option Z :=
  if between 48 57 c then Some (code c - 48) else None.

Fixpoint lstrip (s : string) : string :=
  match s with
  | EmptyString => EmptyString
  | String c s' => if is_space c then lstrip s' else s
  end.

Fixpoint rstrip (s : string) : string :=
  match s with
  | EmptyString => EmptyString
  | String c s' =>
      match rstrip s' with
      | EmptyString => if is_space c then EmptyString else String c EmptyString
      | t => String c t
      end
  end.

Definition strip (s : string) : string := lstrip (rstrip s).

(** Digits with single underscores between them; [after_digit] tells
    whether the previous character was a digit. *)
Fixpoint int_digits (acc : Z) (after_digit : bool) (s : string) : option Z :=
  match s with
  | EmptyString => if after_digit then Some acc else None
  | String c s' =>
      match digit_of c with
      | Some d => int_digits (10 * acc + d) true s'
      | None =>
          if Ascii.eqb c "_" && after_digit then int_digits acc false s' else None
      end
  end.

Fixpoint count_digits (s : string) : Z :=
  match s with
  | EmptyString => 0
  | String c s' => (if between 48 57 c then 1 else 0) + count_digits s'
  end.

(** [sys.int_info.default_max_str_digits]: a longer literal is refused. *)
Definition max_str_digits : Z := 4300.

Definition int_literal (t : string) : option Z :=
  if max_str_digits <? count_digits t then None else int_digits 0 false t.

(** Blanks around the literal are dropped, one sign may precede it. *)
Definition int_opt (s : string) : option Z :=
  match strip s with
  | String "+" t => int_literal t
  | String "-" t => option_map Z.opp (int_literal t)
  | t => int_literal t
  end.

Definition int (s : string) : Result Z :=
  match int_opt s with
  | Some n => Ok n
  | None => Raise ValueError
  end.

(** *** Regular expressions and [re.match] *)

Inductive regex : Type :=
| Void
| Eps
| Chr (c : ascii)
| NotChr (c : ascii)
| Seq (r1 r2 : regex)
| Alt (r1 r2 : regex)
| Star (r : regex).

Definition Plus (r : regex) : regex := Seq r (Star r).

Fixpoint nullable (r : regex) : bool :=
  match r with
  | Void => false
  | Eps => true
  | Chr _ => false
  | NotChr _ => false
  | Seq r1 r2 => nullable r1 && nullable r2
  | Alt r1 r2 => nullable r1 || nullable r2
  | Star _ => true
  end.

Fixpoint deriv (a : ascii) (r : regex) : regex :=
  match r with
  | Void => Void
  | Eps => Void
  | Chr c => if Ascii.eqb a c then Eps else Void
  | NotChr c => if Ascii.eqb a c then Void else Eps
  | Seq r1 r2 =>
      if nullable r1
      then Alt (Seq (deriv a r1) r2) (deriv a r2)
      else Seq (deriv a r1) r2
  | Alt r1 r2 => Alt (deriv a r1) (deriv a r2)
  | Star r1 => Seq (deriv a r1) (Star r1)
  end.

(** [re.match(r, s)] is truthy when some prefix of [s] is in the language
    of [r]: the match is anchored at the start only. *)
Fixpoint re_match (r : regex) (s : string) : bool :=
  nullable r ||
  match s with
  | EmptyString => false
  | String a s' => re_match (deriv a r) s'
  end.

(** The language of a regular expression. *)
Inductive in_lang : regex -> string -> Prop :=
| in_eps : in_lang Eps ""
| in_chr (c : ascii) : in_lang (Chr c) (String c "")
| in_notchr (c a : ascii) : a <> c -> in_lang (NotChr c) (String a "")
| in_seq (r1 r2 : regex) (s1 s2 : string) :
    in_lang r1 s1 -> in_lang r2 s2 -> in_lang (Seq r1 r2) (s1 ++ s2)
| in_alt_l (r1 r2 : regex) (s : string) :
    in_lang r1 s -> in_lang (Alt r1 r2) s
| in_alt_r (r1 r2 : regex) (s : string) :
    in_lang r2 s -> in_lang (Alt r1 r2) s
| in_star_nil (r : regex) : in_lang (Star r) ""
| in_star_cons (r : regex) (s1 s2 : string) :
    in_lang r s1 -> in_lang (Star r) s2 -> in_lang (Star r) (s1 ++ s2).

(** [c in s] for a character. *)
Fixpoint has_char (c : ascii) (s : string) : bool :=
  match s with
  | EmptyString => false
  | String a s' => Ascii.eqb a c || has_char c s'
  end.

(** *** Calendar dates, [datetime.strptime(s, '%Y-%m-%d').date()] *)

Record Date : Type := mkDate { year : Z; month : Z; day : Z }.

Definition is_leap (y : Z) : bool :=
  (y mod 4 =? 0) && (negb (y mod 100 =? 0) || (y mod 400 =? 0)).

Definition days_in_month (y m : Z) : Z :=
  if m =? 2 then (if is_leap y then 29 else 28)
  else if (m =? 4) || (m =? 6) || (m =? 9) || (m =? 11) then 30
  else 31.

(** The constructor check of [datetime.date]: MINYEAR is 1, MAXYEAR 9999. *)
Definition valid_date (d : Date) : bool :=
  (1 <=? year d) && (year d <=? 9999) &&
  (1 <=? month d) && (month d <=? 12) &&
  (1 <=? day d) && (day d <=? days_in_month (year d) (month d)).

(** [%Y] is [\d\d\d\d]. *)
Definition parse_year (a b c d : ascii) : option Z :=
  match digit_of a, digit_of b, digit_of c, digit_of d with
  | Some x, Some y, Some z, Some w => Some (1000 * x + 100 * y + 10 * z + w)
  | _, _, _, _ => None
  end.

(** [%m] is [1[0-2]|0[1-9]|[1-9]], followed by the literal [-]; the rest of
    the string is handed back. *)
Definition parse_month (s : string) : option (Z * string) :=
  match s with
  | String a (String b (String "-" rest)) =>
      if Ascii.eqb a "1" && between 48 50 b then Some (10 + (code b - 48), rest)
      else if Ascii.eqb a "0" && between 49 57 b then Some (code b - 48, rest)
      else None
  | String a (String "-" rest) =>
      if between 49 57 a then Some (code a - 48, rest) else None
  | _ => None
  end.

(** [%d] is [3[0-1]|[1-2]\d|0[1-9]|[1-9]| [1-9]], and nothing may remain
    after it. *)
Definition parse_day (s : string) : option Z :=
  match s with
  | String a (String b EmptyString) =>
      if Ascii.eqb a "3" && between 48 49 b then Some (30 + (code b - 48))
      else if between 49 50 a && between 48 57 b
           then Some (10 * (code a - 48) + (code b - 48))
      else if (Ascii.eqb a "0" || Ascii.eqb a " ") && between 49 57 b
           then Some (code b - 48)
      else None
  | String a EmptyString =>
      if between 49 57 a then Some (code a - 48) else None
  | _ => None
  end.

Definition strptime_ymd_opt (s : string) : option Date :=
  match s with
  | String a (String b (String c (String d (String "-" rest)))) =>
      match parse_year a b c d, parse_month rest with
      | Some y, Some (m, rest') =>
          match parse_day rest' with
          | Some dd =>
              let dt := mkDate y m dd in
              if valid_date dt then Some dt else None
          | None => None
          end
      | _, _ => None
      end
  | _ => None
  end.

Definition strptime_ymd (s : string) : Result Date :=
  match strptime_ymd_opt s with
  | Some d => Ok d
  | None => Raise ValueError
  end.

(** [d1 <= d2] on [datetime.date]: by year, then month, then day. *)
Definition date_leb (d1 d2 : Date) : bool :=
  (year d1 <? year d2) ||
  ((year d1 =? year d2) &&
   ((month d1 <? month d2) ||
    ((month d1 =? month d2) && (day d1 <=? day d2)))).

Definition date_ltb (d1 d2 : Date) : bool := negb (date_leb d2 d1).

(** The day after [d]. *)
Definition next_day (d : Date) : Date :=
  if day d <? days_in_month (year d) (month d)
  then mkDate (year d) (month d) (day d + 1)
  else if month d <? 12 then mkDate (year d) (month d + 1) 1
  else mkDate (year d + 1) 1 1.

End Py.

(** ** The data the handler exchanges with Lex and SQS *)

(** A slot as Lex sends it: [{'value': {'interpretedValue': ...}}]. *)
Record SlotValue : Type := mkSlot { interpretedValue : string }.

(** The slot mapping is a dictionary from slot names to a slot or to
    [None] (JSON null: the slot is not filled). *)
Abbreviation Slots := (gmap string (option SlotValue)).

(** [slots.get(k, None)]: a missing key and a null entry both give [None]. *)
Definition slots_get (slots : Slots) (k : string) : option SlotValue :=
  match slots !! k with
  | Some (Some v) => Some v
  | _ => None
  end.

Abbreviation SessionAttributes := (gmap string string).

(** The event, with the entries the handler reads:
    [event.get('sessionAttributes')], [event['invocationSource']],
    [event['sessionState']['intent']['name']] and
    [event['sessionState']['intent']['slots']]. *)
Record Event : Type := mkEvent {
  ev_sessionAttributes : option SessionAttributes;
  ev_invocationSource : string;
  ev_intent_name : string;
  ev_slots : Slots
}.

Inductive DialogAction : Type :=
| Close
| ElicitSlot (slotToElicit : option string)
| Delegate.

(** The ['intent'] entry of a response; [Close] carries no slots and
    [ElicitSlot] no state. *)
Record Intent : Type := mkIntent {
  name : string;
  slots : option Slots;
  state : option string
}.

Record Message : Type := mkMessage {
  contentType : string;
  content : string
}.

(** A response: the entries of its ['sessionState'], and its ['messages']
    ([Delegate] carries none). *)
Record Response : Type := mkResponse {
  sessionAttributes : SessionAttributes;
  dialogAction : DialogAction;
  intent : Intent;
  messages : option (list Message)
}.

(** [{'isValid': ..., 'violatedSlot': ..., 'message': ...}]; the valid
    result [{'isValid': True}] has the first key only. *)
Record ValidationResult : Type := mkValidation {
  isValid : bool;
  violatedSlot : option string;
  message : option string
}.

(** The dictionary [dinning_details], with the keys of the source. *)
Record DiningDetails : Type := mkDetails {
  ReservationType : string;
  location : option SlotValue;
  Cuisine : option SlotValue;
  DiningTime : option SlotValue;
  DiningDate : option SlotValue;
  NumberofPeople : option SlotValue;
  Email : option SlotValue;
  PhoneNumber : option SlotValue
}.

(** The arguments of [sqs.send_message]. *)
Record SqsRequest : Type := mkRequest {
  QueueUrl : option string;
  MessageBody : DiningDetails
}.

(** What the handler reads from outside: the clock, the environment
    variable and the two libraries.  [MessageBody] above is the record
    handed to [json.dumps]; the encoding itself is boto3's business and is
    folded into [send_message]. *)
Record Env : Type := mkEnv {
  (** [datetime.now().date()], the process running with TZ=America/New_York *)
  today : Py.Date;
  (** [dateutil.parser.parse(s)], its value dropped *)
  dateutil_parse : string -> Result unit;
  (** [os.environ.get('QUEUE_URL')] *)
  QUEUE_URL : option string;
  (** [boto3.client('sqs', region_name='us-east-1')] *)
  boto3_client : Result unit;
  (** [sqs.send_message(QueueUrl=..., MessageBody=json.dumps(...))] *)
  send_message : SqsRequest -> Result unit
}.

(** The requests handed to [send_message] so far, oldest first. *)
Abbreviation Outbox := (list SqsRequest).

(** ** The functions of LF1.py *)

Module LF1.

Definition close_request (session_attributes : SessionAttributes)
    (intent_name : string) (message : string) : Response :=
  {| sessionAttributes := session_attributes;
     dialogAction := Close;
     intent := {| name := intent_name; slots := None; state := Some "Fulfilled" |};
     messages := Some [ {| contentType := "PlainText"; content := message |} ] |}.

Definition elicit_slot (session_attributes : SessionAttributes)
    (intent_name : string) (slots : Slots) (slot_to_elicit : option string)
    (message : Message) : Response :=
  {| sessionAttributes := session_attributes;
     dialogAction := ElicitSlot slot_to_elicit;
     intent := {| name := intent_name; slots := Some slots; state := None |};
     messages := Some [ message ] |}.

Definition delegate (session_attributes : SessionAttributes) (slots : Slots)
    (intent_name : string) : Response :=
  {| sessionAttributes := session_attributes;
     dialogAction := Delegate;
     intent := {| name := intent_name; slots := Some slots;
                  state := Some "ReadyForFulfillment" |};
     messages := None |}.

(** The whole body sits in [try ... except Exception]: whatever is raised
    by the client constructor or by the send gives [False].  The request is
    recorded once [send_message] is called with it. *)
Definition sqs_send (env : Env) (dinning_details : DiningDetails)
    (outbox : Outbox) : bool * Outbox :=
  match boto3_client env with
  | Raise _ => (false, outbox)
  | Ok _ =>
      let request :=
        {| QueueUrl := QUEUE_URL env; MessageBody := dinning_details |} in
      (is_ok (send_message env request), (outbox ++ [request])%list)
  end.

Definition build_validation_result (isvalid : bool) (violated_slot : string)
    (message_content : string) : ValidationResult :=
  {| isValid := isvalid;
     violatedSlot := Some violated_slot;
     message := Some message_content |}.

Definition valid_cities : list string :=
  ["new york"; "manhattan"; "brooklyn"; "nyc"].

Definition is_valid_location (city : string) : bool :=
  Py.contains valid_cities (Py.lower city).

Definition valid_cuisines : list string :=
  ["indian"; "desi"; "american"; "vegetarian"; "seafood"; "chinese"; "korean";
   "mexican"; "mediterranean"; "vegan"].

Definition is_valid_cuisine (cuisine : string) : bool :=
  Py.contains valid_cuisines (Py.lower cuisine).

(** [except ValueError] catches the parser's own error and nothing else. *)
Definition is_valid_date (env : Env) (date : string) : Result bool :=
  match dateutil_parse env date with
  | Ok _ => Ok true
  | Raise ValueError => Ok false
  | Raise e => Raise e
  end.

(** [[^@]+@[^@]+\.[^@]+] *)
Definition email_regex : Py.regex :=
  Py.Seq (Py.Plus (Py.NotChr "@"))
    (Py.Seq (Py.Chr "@")
       (Py.Seq (Py.Plus (Py.NotChr "@"))
          (Py.Seq (Py.Chr ".") (Py.Plus (Py.NotChr "@"))))).

Definition is_valid_email (email : string) : bool :=
  if negb (Py.re_match email_regex email) then false else true.

Definition validate_slots (env : Env) (slots : Slots) : Result ValidationResult :=
  let city := slots_get slots "location" in
  let cuisine := slots_get slots "cuisine" in
  let reservation_date := slots_get slots "reservationDate" in
  let reservation_time := slots_get slots "reservationTime" in
  let number_of_people := slots_get slots "numberOfPeople" in
  let email := slots_get slots "email" in
  let phone_number := slots_get slots "phone_number" in
  (* Validating city *)
  match city with
  | Some c =>
      if negb (is_valid_location (interpretedValue c))
      then return_ (build_validation_result false "location"
             ("We currently do not support " ++ interpretedValue c ++
              ". We only support New York (New York, Manhattan, Brooklyn) region. Which location do you want to book for?"))
      else pass
  | None => pass
  end ;>
  (* Validating cuisine *)
  match cuisine with
  | Some c =>
      if negb (is_valid_cuisine (interpretedValue c))
      then return_ (build_validation_result false "cuisine"
             ("We currently do not offer " ++ interpretedValue c ++
              " cuisine. Can you try a different one?"))
      else pass
  | None => pass
  end ;>
  (* Validating reservation date *)
  match reservation_date with
  | Some rd =>
      let reservation_date_value := interpretedValue rd in
      let* parses := is_valid_date env reservation_date_value in
      if negb parses
      then return_ (build_validation_result false "reservationDate"
             "Please enter a valid reservation date. When would you like to make your reservation?")
      else
        let* d := Py.strptime_ymd reservation_date_value in
        if Py.date_leb d (today env)
        then return_ (build_validation_result false "reservationDate"
               "The reservation date must be in the future. Can you please provide a future date for your reservation?")
        else pass
  | None => pass
  end ;>
  (* Validating reservation time *)
  match reservation_time with
  | Some _ => pass
  | None => pass
  end ;>
  (* Validating number of people *)
  match number_of_people with
  | Some n =>
      let* people := Py.int (interpretedValue n) in
      if (people <? 1) || (people >? 10)
      then return_ (build_validation_result false "numberOfPeople"
             "We accept reservations for up to 10 guests only. How many guests will be attending?")
      else pass
  | None => pass
  end ;>
  (* Validating email *)
  match email with
  | Some e =>
      if negb (is_valid_email (interpretedValue e))
      then return_ (build_validation_result false "email"
             "Please provide a valid email address.")
      else pass
  | None => pass
  end ;>
  Ok {| isValid := true; violatedSlot := None; message := None |}.

(** [intent.get('sessionAttributes') if ... is not None else {}] *)
Definition session_attributes_of (intent : Event) : SessionAttributes :=
  match ev_sessionAttributes intent with
  | Some attrs => attrs
  | None => ∅
  end.

Definition confirmation_message : string :=
  "Youâ€™re all set. Expect my suggestions shortly! Have a good day.".

Definition apology_message : string :=
  "Sorry, we are facing some issues. Please try again later.".

(** The result is [None] when the function ends without [return].  The
    assignment [slots[violated_slot] = None] updates the dictionary of the
    event, which is the one the response then carries. *)
Definition dining_suggestion (env : Env) (intent : Event) (outbox : Outbox)
    : Result (option Response) * Outbox :=
  let intent_name := ev_intent_name intent in
  let slots := ev_slots intent in
  let session_attributes := session_attributes_of intent in
  let dinning_details :=
    {| ReservationType := "Dining";
       location := slots_get slots "location";
       Cuisine := slots_get slots "cuisine";
       DiningTime := slots_get slots "reservationTime";
       DiningDate := slots_get slots "reservationDate";
       NumberofPeople := slots_get slots "numberOfPeople";
       Email := slots_get slots "email";
       PhoneNumber := slots_get slots "phone_number" |} in
  if String.eqb (ev_invocationSource intent) "DialogCodeHook" then
    (let* result := validate_slots env (ev_slots intent) in
     if negb (isValid result) then
       match violatedSlot result with
       | None => Raise (KeyError "violatedSlot")
       | Some violated_slot =>
           let slots := <[violated_slot := None]> slots in
           match message result with
           | None => Raise (KeyError "message")
           | Some text =>
               Ok (Some (elicit_slot session_attributes intent_name slots
                           (Some violated_slot)
                           {| contentType := "PlainText"; content := text |}))
           end
       end
     else Ok (Some (delegate session_attributes slots intent_name)),
     outbox)
  else if String.eqb (ev_invocationSource intent) "FulfillmentCodeHook" then
    let (sqs_result, outbox') := sqs_send env dinning_details outbox in
    let message :=
      if sqs_result then confirmation_message else apology_message in
    (Ok (Some (close_request session_attributes intent_name message)), outbox')
  else (Ok None, outbox).

Definition greeting_message : Message :=
  {| contentType := "PlainText";
     content := "Hi there, I am your Dining Concierge Bot. How can I help you today? You can ask for restaurant suggestions or specify any cuisine you like!" |}.

Definition greeting_intent (intent : Event) : Response :=
  let intent_name := ev_intent_name intent in
  let session_attributes := session_attributes_of intent in
  elicit_slot session_attributes intent_name (ev_slots intent) None
    greeting_message.

Definition thankyou_message : string :=
  "Thank you for using Dining Concierge Bot. How can I help you next time?".

Definition thankyou_intent (intent : Event) : Response :=
  let intent_name := ev_intent_name intent in
  let session_attributes := session_attributes_of intent in
  close_request session_attributes intent_name thankyou_message.

Definition dispatch (env : Env) (event : Event) (outbox : Outbox)
    : Result (option Response) * Outbox :=
  let intent_name := ev_intent_name event in
  if String.eqb intent_name "DiningSuggestionsIntent" then
    dining_suggestion env event outbox
  else if String.eqb intent_name "GreetingIntent" then
    (Ok (Some (greeting_intent event)), outbox)
  else if String.eqb intent_name "ThankYouIntent" then
    (Ok (Some (thankyou_intent event)), outbox)
  else (Ok None, outbox).

(** Setting TZ and logging leave no trace in the response; the clock of
    [env] is the New York one. *)
Definition lambda_handler (env : Env) (event : Event) (outbox : Outbox)
    : Result (option Response) * Outbox :=
  dispatch env event outbox.

End LF1.

(** ** Sample data *)

Module Sample.

(** A stand-in for dateutil on two families of strings it does read: what
    [strptime] takes with ['%Y-%m-%d'], and US dates [MM/DD/YYYY]. *)
Definition us_date (s : string) : bool :=
  match s with
  | String m1 (String m2 (String "/" (String d1 (String d2 (String "/"
      (String y1 (String y2 (String y3 (String y4 EmptyString))))))))) =>
      forallb (Py.between 48 57) [m1; m2; d1; d2; y1; y2; y3; y4]
  | _ => false
  end.

Definition dateutil_sample (s : string) : Result unit :=
  match Py.strptime_ymd_opt s with
  | Some _ => Ok tt
  | None => if us_date s then Ok tt else Raise ValueError
  end.

Definition env : Env :=
  {| today := Py.mkDate 2026 11 4;
     dateutil_parse := dateutil_sample;
     QUEUE_URL := Some "https://sqs.us-east-1.amazonaws.com/000000000000/dining";
     boto3_client := Ok tt;
     send_message := fun _ => Ok tt |}.

(** The same, with a queue that refuses every message. *)
Definition env_down : Env :=
  {| today := Py.mkDate 2026 11 4;
     dateutil_parse := dateutil_sample;
     QUEUE_URL := None;
     boto3_client := Ok tt;
     send_message := fun _ => Raise (OtherError "ParamValidationError") |}.

Definition slot (v : string) : option SlotValue := Some (mkSlot v).

Definition full_slots : Slots :=
  <["location" := slot "Manhattan"]>
  (<["cuisine" := slot "Indian"]>
  (<["reservationDate" := slot "2026-11-05"]>
  (<["reservationTime" := slot "19:00"]>
  (<["numberOfPeople" := slot "4"]>
  (<["email" := slot "a@b.com"]>
  (<["phone_number" := slot "2125550100"]> ∅)))))).

Definition attrs : SessionAttributes := {[ "user" := "u-17" ]}.

Definition dialog_event : Event :=
  {| ev_sessionAttributes := Some attrs;
     ev_invocationSource := "DialogCodeHook";
     ev_intent_name := "DiningSuggestionsIntent";
     ev_slots := full_slots |}.

Definition fulfillment_event : Event :=
  {| ev_sessionAttributes := None;
     ev_invocationSource := "FulfillmentCodeHook";
     ev_intent_name := "DiningSuggestionsIntent";
     ev_slots := full_slots |}.

Definition queens_event : Event :=
  {| ev_sessionAttributes := None;
     ev_invocationSource := "DialogCodeHook";
     ev_intent_name := "DiningSuggestionsIntent";
     ev_slots := {[ "location" := slot "Queens" ]} |}.

(** The location passes; the party size "2.5" is not an integer and the
    email has no [@]. *)
Definition fractional_party : Slots :=
  <["location" := slot "Manhattan"]>
  (<["numberOfPeople" := slot "2.5"]>
  (<["email" := slot "not-an-email"]> ∅)).

Definition with_date (v : string) : Slots :=
  <["reservationDate" := slot v]> full_slots.

Definition with_people (v : string) : Slots :=
  <["numberOfPeople" := slot v]> full_slots.

Definition dialog_with (slots : Slots) : Event :=
  {| ev_sessionAttributes := Some attrs;
     ev_invocationSource := "DialogCodeHook";
     ev_intent_name := "DiningSuggestionsIntent";
     ev_slots := slots |}.

Definition event_of (intent_name source : string) (slots : Slots) : Event :=
  {| ev_sessionAttributes := None;
     ev_invocationSource := source;
     ev_intent_name := intent_name;
     ev_slots := slots |}.

End Sample.

(** ** The validator's rules, as the design states them

    Five fields are checked, in this order; a field that is absent is not
    checked.  [satisfies] is the rule of a field, [first_violation] the
    first present field, in order, that breaks its rule. *)

Module Rules.

Definition field_order : list string :=
  ["location"; "cuisine"; "reservationDate"; "numberOfPeople"; "email"].

Definition location_rule (v : string) : bool :=
  Py.contains LF1.valid_cities (Py.lower v).

Definition cuisine_rule (v : string) : bool :=
  Py.contains LF1.valid_cuisines (Py.lower v).

(** Parses as a date, and the date is strictly later than today. *)
Definition date_rule (env : Env) (v : string) : bool :=
  is_ok (dateutil_parse env v) &&
  match Py.strptime_ymd_opt v with
  | Some d => Py.date_ltb (today env) d
  | None => false
  end.

(** An integer in [1, 10]. *)
Definition people_rule (v : string) : bool :=
  match Py.int_opt v with
  | Some n => (1 <=? n) && (n <=? 10)
  | None => false
  end.

Definition email_rule (v : string) : bool :=
  Py.re_match LF1.email_regex v.

Definition satisfies (env : Env) (field v : string) : bool :=
  if String.eqb field "location" then location_rule v
  else if String.eqb field "cuisine" then cuisine_rule v
  else if String.eqb field "reservationDate" then date_rule env v
  else if String.eqb field "numberOfPeople" then people_rule v
  else if String.eqb field "email" then email_rule v
  else true.

(** A present field that breaks its rule. *)
Definition violates (env : Env) (slots : Slots) (field : string) : bool :=
  match slots_get slots field with
  | Some sv => negb (satisfies env field (interpretedValue sv))
  | None => false
  end.

Definition first_violation (env : Env) (slots : Slots) : option string :=
  find (violates env slots) field_order.

(** The inputs on which the two unguarded conversions of the validator go
    through: a date that dateutil reads is in the form [strptime] wants,
    and the party size is an integer literal. *)
Definition date_convertible (env : Env) (slots : Slots) : bool :=
  match slots_get slots "reservationDate" with
  | Some rd =>
      match dateutil_parse env (interpretedValue rd) with
      | Ok _ => bool_decide (is_Some (Py.strptime_ymd_opt (interpretedValue rd)))
      | Raise ValueError => true
      | Raise _ => false
      end
  | None => true
  end.

Definition people_convertible (slots : Slots) : bool :=
  match slots_get slots "numberOfPeople" with
  | Some n => bool_decide (is_Some (Py.int_opt (interpretedValue n)))
  | None => true
  end.

(** The reservation request: one type field and the seven reservation
    fields, each taken from the slot of the same meaning. *)
Definition reservation_request (slots : Slots) : DiningDetails :=
  {| ReservationType := "Dining";
     location := slots_get slots "location";
     Cuisine := slots_get slots "cuisine";
     DiningTime := slots_get slots "reservationTime";
     DiningDate := slots_get slots "reservationDate";
     NumberofPeople := slots_get slots "numberOfPeople";
     Email := slots_get slots "email";
     PhoneNumber := slots_get slots "phone_number" |}.

(** The routes of the dispatcher and the two phases of the dining flow. *)
Definition is_dining (event : Event) : Prop :=
  ev_intent_name event = "DiningSuggestionsIntent".

Definition in_dialog_phase (event : Event) : Prop :=
  ev_invocationSource event = "DialogCodeHook".

Definition in_fulfillment_phase (event : Event) : Prop :=
  ev_invocationSource event = "FulfillmentCodeHook".

(** The location and cuisine checks let the mapping through. *)
Definition reaches_date (env : Env) (slots : Slots) : Prop :=
  violates env slots "location" = false /\
  violates env slots "cuisine" = false.

(** So does the date check. *)
Definition reaches_people (env : Env) (slots : Slots) : Prop :=
  reaches_date env slots /\ violates env slots "reservationDate" = false.

End Rules.

(** ** Properties of the builtins *)

Example lower_ex : Py.lower "New York" = "new york".
Proof. reflexivity. Qed.
Example int_ex1 : Py.int_opt " 1_0 " = Some 10.
Proof. reflexivity. Qed.
Example int_ex2 : Py.int_opt "five" = None.
Proof. reflexivity. Qed.
Example int_ex3 : Py.int_opt "-3" = Some (-3).
Proof. reflexivity. Qed.
Example strptime_ex1 : Py.strptime_ymd_opt "2026-12-25" = Some (Py.mkDate 2026 12 25).
Proof. reflexivity. Qed.
Example strptime_ex2 : Py.strptime_ymd_opt "12/25/2026" = None.
Proof. reflexivity. Qed.
Example strptime_ex3 : Py.strptime_ymd_opt "2026-02-29" = None.
Proof. reflexivity. Qed.

Section Builtins.

Lemma contains_In (l : list string) (x : string) :
  Py.contains l x = true <-> In x l.
Proof.
  unfold Py.contains. rewrite existsb_exists. split.
  - intros (y & Hy & Heq). apply String.eqb_eq in Heq. now subst.
  - intros Hin. exists x. split; [assumption | apply String.eqb_refl].
Qed.

Lemma date_leb_next_day (d : Py.Date) : Py.date_leb (Py.next_day d) d = false.
Proof.
  unfold Py.next_day, Py.date_leb.
  destruct (Py.day d <? Py.days_in_month (Py.year d) (Py.month d)) eqn:Hd;
    [| destruct (Py.month d <? 12) eqn:Hm]; cbn [Py.year Py.month Py.day].
  all: repeat match goal with
       | |- context [?a <? ?b] => destruct (Z.ltb_spec a b)
       | |- context [?a =? ?b] => destruct (Z.eqb_spec a b)
       | |- context [?a <=? ?b] => destruct (Z.leb_spec a b)
       end; cbn; try reflexivity; try lia.
Qed.

Lemma date_leb_refl (d : Py.Date) : Py.date_leb d d = true.
Proof.
  unfold Py.date_leb. rewrite !Z.eqb_refl, Z.leb_refl. cbn.
  now rewrite !orb_true_r.
Qed.

Lemma date_ltb_next_day (d : Py.Date) : Py.date_ltb d (Py.next_day d) = true.
Proof. unfold Py.date_ltb. now rewrite date_leb_next_day. Qed.

Lemma outside_range (n : Z) :
  (n <? 1) || (n >? 10) = negb ((1 <=? n) && (n <=? 10)).
Proof.
  rewrite Z.gtb_ltb.
  destruct (Z.ltb_spec n 1), (Z.ltb_spec 10 n), (Z.leb_spec 1 n),
    (Z.leb_spec n 10); cbn; try reflexivity; lia.
Qed.

Lemma int_of_int_opt (s : string) (n : Z) :
  Py.int_opt s = Some n -> Py.int s = Ok n.
Proof. unfold Py.int. now intros ->. Qed.

Lemma int_raises (s : string) :
  Py.int_opt s = None -> Py.int s = Raise ValueError.
Proof. unfold Py.int. now intros ->. Qed.

Lemma append_empty (s1 s2 : string) : s1 ++ s2 = "" -> s1 = "" /\ s2 = "".
Proof. destruct s1; cbn; [auto | discriminate]. Qed.

Lemma in_seq_inv (r1 r2 : Py.regex) (s : string) :
  Py.in_lang (Py.Seq r1 r2) s ->
  exists s1 s2, s = s1 ++ s2 /\ Py.in_lang r1 s1 /\ Py.in_lang r2 s2.
Proof. intros H. inversion H; subst. eauto. Qed.

Lemma in_alt_inv (r1 r2 : Py.regex) (s : string) :
  Py.in_lang (Py.Alt r1 r2) s -> Py.in_lang r1 s \/ Py.in_lang r2 s.
Proof. intros H. inversion H; subst; auto. Qed.

Lemma in_chr_inv (c : ascii) (s : string) :
  Py.in_lang (Py.Chr c) s -> s = String c "".
Proof. intros H. now inversion H. Qed.

Lemma in_notchr_inv (c : ascii) (s : string) :
  Py.in_lang (Py.NotChr c) s -> exists a, a <> c /\ s = String a "".
Proof. intros H. inversion H; subst. eauto. Qed.

Lemma nullable_in_lang (r : Py.regex) :
  Py.nullable r = true <-> Py.in_lang r "".
Proof.
  induction r; cbn.
  - split; [discriminate | intros H; inversion H].
  - split; [constructor | reflexivity].
  - split; [discriminate | intros H; apply in_chr_inv in H; discriminate].
  - split; [discriminate|].
    intros H. apply in_notchr_inv in H as (a & _ & H). discriminate.
  - rewrite andb_true_iff, IHr1, IHr2. split.
    + intros [H1 H2]. change "" with ("" ++ ""). now constructor.
    + intros H. apply in_seq_inv in H as (s1 & s2 & Heq & H1 & H2).
      symmetry in Heq. apply append_empty in Heq as [-> ->]. auto.
  - rewrite orb_true_iff, IHr1, IHr2. split.
    + intros [H|H]; [now apply Py.in_alt_l | now apply Py.in_alt_r].
    + apply in_alt_inv.
  - split; [constructor | reflexivity].
Qed.

(** A non-empty word of a star starts with a non-empty word of the body. *)
Lemma star_head (r : Py.regex) (w : string) :
  Py.in_lang (Py.Star r) w ->
  forall a s, w = String a s ->
  exists s1 s2, s = s1 ++ s2 /\ Py.in_lang r (String a s1) /\ Py.in_lang (Py.Star r) s2.
Proof.
  assert (Hgen : forall r' w, Py.in_lang r' w -> r' = Py.Star r ->
            forall a s, w = String a s ->
            exists s1 s2, s = s1 ++ s2 /\ Py.in_lang r (String a s1) /\
                          Py.in_lang (Py.Star r) s2).
  { clear w. intros r' w H.
    induction H as [| | | | | | r0 | r0 s1 s2 H1 _ H2 IH2];
      intros Hr x t Heq; try discriminate.
    injection Hr as ->. destruct s1 as [|b s1'].
    - now apply IH2.
    - change (String b (s1' ++ s2) = String x t) in Heq.
      injection Heq as -> <-. exists s1', s2. auto. }
  intros H. now apply (Hgen (Py.Star r) w).
Qed.

Lemma deriv_in_lang (r : Py.regex) (a : ascii) (s : string) :
  Py.in_lang (Py.deriv a r) s <-> Py.in_lang r (String a s).
Proof.
  revert s. induction r; intros s; cbn.
  - split; intros H; inversion H.
  - split; intros H; inversion H.
  - destruct (Ascii.eqb_spec a c) as [->|Hne]; split; intros H.
    + inversion H; subst. constructor.
    + apply in_chr_inv in H. injection H as ->. constructor.
    + inversion H.
    + apply in_chr_inv in H. congruence.
  - destruct (Ascii.eqb_spec a c) as [->|Hne]; split; intros H.
    + inversion H.
    + apply in_notchr_inv in H as (b & Hb & H). congruence.
    + inversion H; subst. now constructor.
    + apply in_notchr_inv in H as (b & Hb & H). injection H as _ ->. constructor.
  - assert (Hhead : forall s', Py.in_lang (Py.Seq (Py.deriv a r1) r2) s' ->
                      Py.in_lang (Py.Seq r1 r2) (String a s')).
    { intros s' H. apply in_seq_inv in H as (s1 & s2 & -> & H1 & H2).
      change (String a (s1 ++ s2)) with (String a s1 ++ s2).
      constructor; [now apply IHr1 | exact H2]. }
    assert (Htail : forall s1 s2, Py.in_lang r1 (String a s1) -> Py.in_lang r2 s2 ->
                      Py.in_lang (Py.Seq (Py.deriv a r1) r2) (s1 ++ s2)).
    { intros s1 s2 H1 H2. constructor; [now apply IHr1 | exact H2]. }
    destruct (Py.nullable r1) eqn:Hnull; split; intros H.
    + apply in_alt_inv in H as [H|H]; [now apply Hhead|].
      change (String a s) with ("" ++ String a s).
      constructor; [now apply nullable_in_lang | now apply IHr2].
    + apply in_seq_inv in H as (s1 & s2 & Heq & H1 & H2).
      destruct s1 as [|b s1'].
      * change (String a s = s2) in Heq. subst s2. apply Py.in_alt_r. now apply IHr2.
      * change (String a s = String b (s1' ++ s2)) in Heq.
        injection Heq as -> ->. apply Py.in_alt_l. now apply Htail.
    + now apply Hhead.
    + apply in_seq_inv in H as (s1 & s2 & Heq & H1 & H2).
      destruct s1 as [|b s1'].
      * apply nullable_in_lang in H1. congruence.
      * change (String a s = String b (s1' ++ s2)) in Heq.
        injection Heq as -> ->. now apply Htail.
  - split; intros H; apply in_alt_inv in H as [H|H];
      solve [apply Py.in_alt_l; now apply IHr1 | apply Py.in_alt_r; now apply IHr2].
  - split; intros H.
    + apply in_seq_inv in H as (s1 & s2 & -> & H1 & H2).
      change (String a (s1 ++ s2)) with (String a s1 ++ s2).
      constructor; [now apply IHr | exact H2].
    + destruct (star_head r _ H a s eq_refl) as (s1 & s2 & -> & H1 & H2).
      constructor; [now apply IHr | exact H2].
Qed.

(** [re_match] accepts exactly the strings with a prefix in the language. *)
Lemma re_match_prefix (r : Py.regex) (s : string) :
  Py.re_match r s = true <-> exists p q, s = p ++ q /\ Py.in_lang r p.
Proof.
  revert r. induction s as [|a s IH]; intros r; cbn.
  - rewrite orb_false_r, nullable_in_lang. split.
    + intros H. exists "", "". auto.
    + intros (p & q & Heq & H). symmetry in Heq.
      apply append_empty in Heq as [-> _]. exact H.
  - rewrite orb_true_iff, nullable_in_lang, IH. split.
    + intros [H | (p & q & -> & H)].
      * exists "", (String a s). auto.
      * exists (String a p), q. split; [reflexivity | now apply deriv_in_lang].
    + intros (p & q & Heq & H). destruct p as [|b p].
      * now left.
      * change (String a s = String b (p ++ q)) in Heq.
        injection Heq as -> ->. right.
        exists p, q. split; [reflexivity | now apply deriv_in_lang].
Qed.

(** The email check asks for a prefix of the form [x@y.z], with [x], [y],
    [z] non-empty and free of [@]. *)
Lemma is_valid_email_prefix (email : string) :
  LF1.is_valid_email email = true <->
  exists p q, email = p ++ q /\ Py.in_lang LF1.email_regex p.
Proof.
  unfold LF1.is_valid_email. rewrite <- re_match_prefix.
  now destruct (Py.re_match LF1.email_regex email).
Qed.

Example email_ex1 : LF1.is_valid_email "a@b.com" = true.
Proof. reflexivity. Qed.
Example email_ex2 : LF1.is_valid_email "not-an-email" = false.
Proof. reflexivity. Qed.
Example email_ex3 : LF1.is_valid_email "a@b.com@" = true.
Proof. reflexivity. Qed.

End Builtins.

(** ** Properties of [validate_slots] *)

Section Validator.

Variable env : Env.

#[local] Arguments LF1.is_valid_location : simpl never.
#[local] Arguments LF1.is_valid_cuisine : simpl never.
#[local] Arguments LF1.is_valid_email : simpl never.

Lemma violates_location (slots : Slots) :
  Rules.violates env slots "location" =
  match slots_get slots "location" with
  | Some c => negb (LF1.is_valid_location (interpretedValue c))
  | None => false
  end.
Proof. reflexivity. Qed.

Lemma violates_cuisine (slots : Slots) :
  Rules.violates env slots "cuisine" =
  match slots_get slots "cuisine" with
  | Some c => negb (LF1.is_valid_cuisine (interpretedValue c))
  | None => false
  end.
Proof. reflexivity. Qed.

Lemma violates_date (slots : Slots) :
  Rules.violates env slots "reservationDate" =
  match slots_get slots "reservationDate" with
  | Some rd => negb (Rules.date_rule env (interpretedValue rd))
  | None => false
  end.
Proof. reflexivity. Qed.

Lemma violates_people (slots : Slots) :
  Rules.violates env slots "numberOfPeople" =
  match slots_get slots "numberOfPeople" with
  | Some n => negb (Rules.people_rule (interpretedValue n))
  | None => false
  end.
Proof. reflexivity. Qed.

Lemma violates_email (slots : Slots) :
  Rules.violates env slots "email" =
  match slots_get slots "email" with
  | Some e => negb (LF1.is_valid_email (interpretedValue e))
  | None => false
  end.
Proof.
  unfold Rules.violates. destruct (slots_get slots "email") as [e|]; [|reflexivity].
  change (Rules.satisfies env "email" (interpretedValue e))
    with (Py.re_match LF1.email_regex (interpretedValue e)).
  unfold LF1.is_valid_email.
  now destruct (Py.re_match LF1.email_regex (interpretedValue e)).
Qed.

Lemma first_violation_unfold (slots : Slots) :
  Rules.first_violation env slots =
  if Rules.violates env slots "location" then Some "location"
  else if Rules.violates env slots "cuisine" then Some "cuisine"
  else if Rules.violates env slots "reservationDate" then Some "reservationDate"
  else if Rules.violates env slots "numberOfPeople" then Some "numberOfPeople"
  else if Rules.violates env slots "email" then Some "email"
  else None.
Proof. reflexivity. Qed.

(** Whenever the validator returns, it reports the first violation in the
    order of the design, and [isValid] exactly when there is none. *)
Lemma validate_slots_first_violation (slots : Slots) (vr : ValidationResult) :
  LF1.validate_slots env slots = Ok vr ->
  violatedSlot vr = Rules.first_violation env slots /\
  isValid vr = match Rules.first_violation env slots with
               | Some _ => false
               | None => true
               end.
Proof.
  rewrite first_violation_unfold, violates_location, violates_cuisine,
    violates_date, violates_people, violates_email.
  unfold LF1.validate_slots, LF1.is_valid_date, Rules.date_rule,
    Rules.people_rule, Py.int, Py.strptime_ymd, Py.date_ltb, LF1.build_validation_result.
  intros H.
  repeat (case_match; cbn in *; rewrite ?outside_range in *; simplify_eq);
    try done.
Qed.

(** A failed validation names its slot and carries a message. *)
Lemma validate_slots_violation_shape (slots : Slots) (vr : ValidationResult) :
  LF1.validate_slots env slots = Ok vr ->
  isValid vr = false ->
  exists field text,
    vr = {| isValid := false; violatedSlot := Some field; message := Some text |}.
Proof.
  unfold LF1.validate_slots, LF1.build_validation_result, LF1.is_valid_date,
    Py.int, Py.strptime_ymd.
  intros H Hv.
  repeat (case_match; cbn in *; simplify_eq); cbn in *; simplify_eq; eauto.
Qed.

Lemma validate_slots_valid_shape (slots : Slots) (vr : ValidationResult) :
  LF1.validate_slots env slots = Ok vr ->
  isValid vr = true ->
  vr = {| isValid := true; violatedSlot := None; message := None |}.
Proof.
  unfold LF1.validate_slots, LF1.build_validation_result, LF1.is_valid_date,
    Py.int, Py.strptime_ymd.
  intros H Hv.
  repeat (case_match; cbn in *; simplify_eq); cbn in *; simplify_eq; eauto.
Qed.

(** The validator returns whenever its two conversions go through. *)
Lemma validate_slots_returns (slots : Slots) :
  Rules.date_convertible env slots = true ->
  Rules.people_convertible slots = true ->
  exists vr, LF1.validate_slots env slots = Ok vr.
Proof.
  unfold Rules.date_convertible, Rules.people_convertible, LF1.validate_slots,
    LF1.is_valid_date, Py.int, Py.strptime_ymd.
  intros Hd Hp.
  repeat (case_match; cbn in *; simplify_eq); eauto;
    try match goal with
        | H : bool_decide (is_Some None) = true |- _ =>
            apply bool_decide_eq_true in H; destruct H; discriminate
        end.
Qed.


Lemma slots_get_delete (slots : Slots) (k k' : string) :
  slots_get (delete k slots) k' =
  if decide (k = k') then None else slots_get slots k'.
Proof. unfold slots_get. rewrite lookup_delete. now case_decide. Qed.

Lemma slots_get_insert_None (slots : Slots) (k k' : string) :
  slots_get (<[k := None]> slots) k' =
  if decide (k = k') then None else slots_get slots k'.
Proof. unfold slots_get. rewrite lookup_insert. now case_decide. Qed.

(** A present slot that satisfies its rule weighs on the outcome no more
    than an absent one; so does any slot that has no rule (the time and
    the phone number among them). *)
Lemma validate_slots_skip (slots : Slots) (field : string) (sv : SlotValue) :
  slots_get slots field = Some sv ->
  Rules.satisfies env field (interpretedValue sv) = true ->
  LF1.validate_slots env slots = LF1.validate_slots env (delete field slots).
Proof.
  intros Hget Hsat. unfold LF1.validate_slots.
  rewrite !slots_get_delete.
  repeat case_decide; simplify_eq; rewrite ?Hget; try reflexivity.
  - change (LF1.is_valid_location (interpretedValue sv) = true) in Hsat.
    now rewrite Hsat.
  - change (LF1.is_valid_cuisine (interpretedValue sv) = true) in Hsat.
    now rewrite Hsat.
  - change (Rules.date_rule env (interpretedValue sv) = true) in Hsat.
    unfold Rules.date_rule, Py.date_ltb in Hsat.
    unfold LF1.is_valid_date, Py.strptime_ymd.
    destruct (dateutil_parse env (interpretedValue sv)); [|discriminate].
    destruct (Py.strptime_ymd_opt (interpretedValue sv)) as [d|]; [|discriminate].
    cbn in Hsat |- *. apply negb_true_iff in Hsat. now rewrite Hsat.
  - change (Rules.people_rule (interpretedValue sv) = true) in Hsat.
    unfold Rules.people_rule in Hsat. unfold Py.int.
    destruct (Py.int_opt (interpretedValue sv)) as [n|]; [|discriminate].
    cbn. rewrite outside_range, Hsat. reflexivity.
  - change (Py.re_match LF1.email_regex (interpretedValue sv) = true) in Hsat.
    unfold LF1.is_valid_email. now rewrite Hsat.
Qed.

(** The validator never blames a slot that is absent. *)
Lemma validate_slots_blames_present (slots : Slots) (vr : ValidationResult)
    (field : string) :
  LF1.validate_slots env slots = Ok vr ->
  violatedSlot vr = Some field ->
  is_Some (slots_get slots field).
Proof.
  intros H Hf. apply validate_slots_first_violation in H as [H _].
  rewrite Hf in H. symmetry in H.
  unfold Rules.first_violation in H. apply find_some in H as [_ H].
  unfold Rules.violates in H.
  destruct (slots_get slots field); [eauto | discriminate].
Qed.

Lemma slots_get_delete_eq (slots : Slots) (k : string) :
  slots_get (delete k slots) k = None.
Proof. rewrite slots_get_delete. now case_decide. Qed.

Lemma slots_get_delete_ne (slots : Slots) (k k' : string) :
  k <> k' -> slots_get (delete k slots) k' = slots_get slots k'.
Proof. intros Hne. rewrite slots_get_delete. now case_decide. Qed.

Lemma violates_delete (slots : Slots) (field k : string) :
  Rules.violates env (delete field slots) k =
  if decide (field = k) then false else Rules.violates env slots k.
Proof.
  unfold Rules.violates. rewrite slots_get_delete. now case_decide.
Qed.

(** A field that is absent, or present and within its rule, can be left
    out of the mapping. *)
Lemma validate_slots_drop (slots : Slots) (field : string) :
  Rules.violates env slots field = false ->
  LF1.validate_slots env slots = LF1.validate_slots env (delete field slots).
Proof.
  unfold Rules.violates. intros Hv.
  destruct (slots_get slots field) as [sv|] eqn:Hget.
  - apply negb_false_iff in Hv. now apply validate_slots_skip with sv.
  - unfold LF1.validate_slots. rewrite !slots_get_delete.
    repeat case_decide; simplify_eq; rewrite ?Hget; reflexivity.
Qed.

(** Past the first three checks the outcome is that of the party size and
    the email alone. *)
Lemma validate_slots_from_people (slots : Slots) :
  Rules.reaches_people env slots ->
  LF1.validate_slots env slots =
  LF1.validate_slots env
    (delete "reservationDate" (delete "cuisine" (delete "location" slots))).
Proof.
  intros [[Hloc Hcui] Hdate].
  rewrite (validate_slots_drop slots "location") by exact Hloc.
  rewrite (validate_slots_drop _ "cuisine")
    by (rewrite violates_delete; exact Hcui).
  rewrite (validate_slots_drop _ "reservationDate")
    by (rewrite !violates_delete; exact Hdate).
  reflexivity.
Qed.

Lemma validate_slots_from_date (slots : Slots) :
  Rules.reaches_date env slots ->
  LF1.validate_slots env slots =
  LF1.validate_slots env (delete "cuisine" (delete "location" slots)).
Proof.
  intros [Hloc Hcui].
  rewrite (validate_slots_drop slots "location") by exact Hloc.
  rewrite (validate_slots_drop _ "cuisine")
    by (rewrite violates_delete; exact Hcui).
  reflexivity.
Qed.

Lemma not_blamed_when_dropped (slots : Slots) (field : string) :
  LF1.validate_slots env slots = LF1.validate_slots env (delete field slots) ->
  forall vr, LF1.validate_slots env slots = Ok vr ->
             violatedSlot vr <> Some field.
Proof.
  intros Hskip vr Hvr Hblame. rewrite Hskip in Hvr.
  apply (validate_slots_blames_present _ _ _ Hvr) in Hblame.
  rewrite slots_get_delete in Hblame. case_decide; [|congruence].
  destruct Hblame; discriminate.
Qed.

Lemma people_rule_range (v : string) (n : Z) :
  Py.int_opt v = Some n ->
  Rules.people_rule v = true <-> 1 <= n <= 10.
Proof.
  unfold Rules.people_rule. intros ->.
  rewrite andb_true_iff, !Z.leb_le. reflexivity.
Qed.

End Validator.

Ltac slots_get_deleted :=
  repeat (rewrite slots_get_delete_eq ||
          rewrite slots_get_delete_ne by discriminate).

(** ** Properties of the handlers *)

Section Handlers.

Variable env : Env.

Lemma session_attributes_of_default (event : Event) :
  LF1.session_attributes_of event = default ∅ (ev_sessionAttributes event).
Proof. unfold LF1.session_attributes_of. now destruct (ev_sessionAttributes event). Qed.

Lemma lambda_handler_dining (event : Event) (outbox : Outbox) :
  Rules.is_dining event ->
  LF1.lambda_handler env event outbox = LF1.dining_suggestion env event outbox.
Proof.
  unfold Rules.is_dining, LF1.lambda_handler, LF1.dispatch. now intros ->.
Qed.

(** An exception of the validator leaves the handler as it is: nothing on
    the way up catches it. *)
Lemma dialog_phase_raises (event : Event) (outbox : Outbox) (e : exn) :
  Rules.in_dialog_phase event ->
  LF1.validate_slots env (ev_slots event) = Raise e ->
  LF1.dining_suggestion env event outbox = (Raise e, outbox).
Proof.
  unfold Rules.in_dialog_phase, LF1.dining_suggestion. intros -> ->. reflexivity.
Qed.

Lemma dialog_phase_valid (event : Event) (outbox : Outbox) (vr : ValidationResult) :
  Rules.in_dialog_phase event ->
  LF1.validate_slots env (ev_slots event) = Ok vr ->
  isValid vr = true ->
  LF1.dining_suggestion env event outbox =
  (Ok (Some (LF1.delegate (LF1.session_attributes_of event) (ev_slots event)
               (ev_intent_name event))), outbox).
Proof.
  unfold Rules.in_dialog_phase, LF1.dining_suggestion. intros -> -> Hv.
  cbn. now rewrite Hv.
Qed.

Lemma dialog_phase_invalid (event : Event) (outbox : Outbox)
    (field text : string) :
  Rules.in_dialog_phase event ->
  LF1.validate_slots env (ev_slots event) =
    Ok {| isValid := false; violatedSlot := Some field; message := Some text |} ->
  LF1.dining_suggestion env event outbox =
  (Ok (Some (LF1.elicit_slot (LF1.session_attributes_of event)
               (ev_intent_name event) (<[field := None]> (ev_slots event))
               (Some field)
               {| contentType := "PlainText"; content := text |})), outbox).
Proof.
  unfold Rules.in_dialog_phase, LF1.dining_suggestion. intros -> ->. reflexivity.
Qed.

Lemma fulfillment_phase_eq (event : Event) (outbox : Outbox) :
  Rules.in_fulfillment_phase event ->
  LF1.dining_suggestion env event outbox =
  let sent := LF1.sqs_send env (Rules.reservation_request (ev_slots event)) outbox in
  (Ok (Some (LF1.close_request (LF1.session_attributes_of event)
               (ev_intent_name event)
               (if fst sent then LF1.confirmation_message
                else LF1.apology_message))), snd sent).
Proof.
  unfold Rules.in_fulfillment_phase, LF1.dining_suggestion. intros ->. cbn.
  fold (Rules.reservation_request (ev_slots event)).
  now destruct (LF1.sqs_send env (Rules.reservation_request (ev_slots event)) outbox).
Qed.

Lemma sqs_send_result (details : DiningDetails) (outbox : Outbox) :
  LF1.sqs_send env details outbox =
  let request := {| QueueUrl := QUEUE_URL env; MessageBody := details |} in
  if is_ok (boto3_client env)
  then (is_ok (send_message env request), (outbox ++ [request])%list)
  else (false, outbox).
Proof. unfold LF1.sqs_send. now destruct (boto3_client env). Qed.

End Handlers.

(** ** The slot validator: order of the checks *)

(** C1. The validator is to report the first violation in the order
    location, cuisine, date, party size, email.  On the mapping
    [Sample.fractional_party] the location passes, and both the party size
    ("2.5", not an integer) and the email break their rules: the first
    violation is the party size, yet the validator reports nothing and
    raises [ValueError] from [int], and the dialog phase ends with that
    exception in place of an [ElicitSlot]. *)
Theorem validate_slots_raises_before_reporting (env : Env) (outbox : Outbox) :
  Rules.first_violation env Sample.fractional_party = Some "numberOfPeople" /\
  Rules.violates env Sample.fractional_party "email" = true /\
  LF1.validate_slots env Sample.fractional_party = Raise ValueError /\
  LF1.lambda_handler env (Sample.dialog_with Sample.fractional_party) outbox =
    (Raise ValueError, outbox).
Proof.
  assert (Hraise : LF1.validate_slots env Sample.fractional_party =
                   Raise ValueError) by reflexivity.
  split; [reflexivity | split; [reflexivity | split; [exact Hraise|]]].
  rewrite lambda_handler_dining by reflexivity.
  now apply dialog_phase_raises.
Qed.

(** ** The slot validator: field by field *)

Section Fields.

Variable env : Env.

(** C8. A present location is let through exactly when its lower-case
    form is one of new york, manhattan, brooklyn, nyc: then the outcome is
    that of the mapping without the location and never blames it;
    otherwise the outcome is a violation of [location] whose text names
    the value.  With "Queens", the dialog phase answers [ElicitSlot] for
    [location]. *)
Theorem location_validation (slots : Slots) (sv : SlotValue) :
  slots_get slots "location" = Some sv ->
  let v := interpretedValue sv in
  let listed := In (Py.lower v) ["new york"; "manhattan"; "brooklyn"; "nyc"] in
  (listed ->
   LF1.validate_slots env slots = LF1.validate_slots env (delete "location" slots) /\
   forall vr, LF1.validate_slots env slots = Ok vr ->
              violatedSlot vr <> Some "location") /\
  (~ listed ->
   LF1.validate_slots env slots =
     Ok {| isValid := false;
           violatedSlot := Some "location";
           message := Some ("We currently do not support " ++ v ++
             ". We only support New York (New York, Manhattan, Brooklyn) region. Which location do you want to book for?") |}) /\
  (v = "Queens" ->
   forall (event : Event) (outbox : Outbox),
     Rules.is_dining event ->
     Rules.in_dialog_phase event ->
     ev_slots event = slots ->
     LF1.lambda_handler env event outbox =
       (Ok (Some
          {| sessionAttributes := default ∅ (ev_sessionAttributes event);
             dialogAction := ElicitSlot (Some "location");
             intent := {| name := "DiningSuggestionsIntent";
                          slots := Some (<["location" := None]> slots);
                          state := None |};
             messages := Some [
               {| contentType := "PlainText";
                  content := "We currently do not support Queens. We only support New York (New York, Manhattan, Brooklyn) region. Which location do you want to book for?" |} ] |}),
        outbox)).
Proof.
  intros Hget v listed.
  assert (Hlisted : LF1.is_valid_location v = true <-> listed)
    by apply contains_In.
  assert (Hno : ~ listed ->
    LF1.validate_slots env slots =
     Ok {| isValid := false;
           violatedSlot := Some "location";
           message := Some ("We currently do not support " ++ v ++
             ". We only support New York (New York, Manhattan, Brooklyn) region. Which location do you want to book for?") |}).
  { intros Hout. unfold LF1.validate_slots. rewrite Hget. fold v.
    destruct (LF1.is_valid_location v); [|reflexivity].
    exfalso. apply Hout, Hlisted. reflexivity. }
  split; [|split].
  - intros Hin.
    assert (Hskip : LF1.validate_slots env slots =
                    LF1.validate_slots env (delete "location" slots)).
    { apply validate_slots_skip with sv; [exact Hget|]. now apply Hlisted. }
    split; [exact Hskip | now apply not_blamed_when_dropped].
  - exact Hno.
  - intros Hq event outbox Hdining Hdialog Hslots.
    rewrite lambda_handler_dining by exact Hdining.
    assert (Hout : ~ listed).
    { unfold listed. rewrite Hq. cbn. intros [H|[H|[H|[H|[]]]]]; discriminate. }
    apply Hno in Hout. rewrite Hq in Hout. cbn in Hout.
    rewrite <- Hslots in Hout.
    rewrite (dialog_phase_invalid env event outbox _ _ Hdialog Hout).
    unfold LF1.elicit_slot. rewrite session_attributes_of_default, Hslots.
    unfold Rules.is_dining in Hdining. now rewrite Hdining.
Qed.

(** C5. A present reservation date: when dateutil refuses the value, the
    validator answers with a violation of [reservationDate]; when the date
    is today (or earlier), it does too; when the date is tomorrow (or
    later) and dateutil reads the value, the date is let through: the
    outcome is that of the mapping without the date, and is never a
    violation of [reservationDate]. *)
Theorem reservation_date_validation (slots : Slots) (rd : SlotValue) :
  slots_get slots "reservationDate" = Some rd ->
  let v := interpretedValue rd in
  (dateutil_parse env v = Raise ValueError ->
   Rules.reaches_date env slots ->
   LF1.validate_slots env slots =
     Ok {| isValid := false;
           violatedSlot := Some "reservationDate";
           message := Some "Please enter a valid reservation date. When would you like to make your reservation?" |}) /\
  (forall (d : Py.Date) (parses : bool),
     Py.strptime_ymd_opt v = Some d ->
     d = today env \/ Py.date_leb d (today env) = true ->
     LF1.is_valid_date env v = Ok parses ->
     Rules.reaches_date env slots ->
     exists text,
       LF1.validate_slots env slots =
         Ok {| isValid := false;
               violatedSlot := Some "reservationDate";
               message := Some text |}) /\
  (forall d : Py.Date,
     Py.strptime_ymd_opt v = Some d ->
     d = Py.next_day (today env) \/ Py.date_ltb (today env) d = true ->
     is_ok (dateutil_parse env v) = true ->
     LF1.validate_slots env slots =
       LF1.validate_slots env (delete "reservationDate" slots) /\
     forall vr, LF1.validate_slots env slots = Ok vr ->
                violatedSlot vr <> Some "reservationDate").
Proof.
  intros Hget v. split; [|split].
  - intros Hparse Hreach. rewrite validate_slots_from_date by exact Hreach.
    unfold LF1.validate_slots, LF1.is_valid_date. slots_get_deleted.
    rewrite Hget. fold v. now rewrite Hparse.
  - intros d parses Hd Hle Hvalid Hreach.
    assert (Hleb : Py.date_leb d (today env) = true).
    { destruct Hle as [-> | H]; [apply date_leb_refl | exact H]. }
    rewrite validate_slots_from_date by exact Hreach.
    unfold LF1.validate_slots, Py.strptime_ymd. slots_get_deleted.
    rewrite Hget. fold v. rewrite Hvalid, Hd. cbn [bind]. rewrite Hleb.
    destruct parses; cbn; eauto.
  - intros d Hd Hlt Hok.
    assert (Hskip : LF1.validate_slots env slots =
                    LF1.validate_slots env (delete "reservationDate" slots)).
    { apply validate_slots_skip with rd; [exact Hget|].
      change (Rules.date_rule env v = true). unfold Rules.date_rule.
      rewrite Hok, Hd. destruct Hlt as [-> | H];
        [apply date_ltb_next_day | exact H]. }
    split; [exact Hskip | now apply not_blamed_when_dropped].
Qed.

(** C7. A present party size that reads as the integer [n]: outside
    [1, 10] (0 and 11 among them) the validator answers with a violation
    of [numberOfPeople]; inside (1 and 10 among them) the value is let
    through: the outcome is that of the mapping without the party size,
    and is never a violation of [numberOfPeople]. *)
Theorem party_size_validation (slots : Slots) (sv : SlotValue) (n : Z) :
  slots_get slots "numberOfPeople" = Some sv ->
  Py.int_opt (interpretedValue sv) = Some n ->
  (n < 1 \/ 10 < n ->
   Rules.reaches_people env slots ->
   LF1.validate_slots env slots =
     Ok {| isValid := false;
           violatedSlot := Some "numberOfPeople";
           message := Some "We accept reservations for up to 10 guests only. How many guests will be attending?" |}) /\
  (1 <= n <= 10 ->
   LF1.validate_slots env slots =
     LF1.validate_slots env (delete "numberOfPeople" slots) /\
   forall vr, LF1.validate_slots env slots = Ok vr ->
              violatedSlot vr <> Some "numberOfPeople").
Proof.
  intros Hget Hint. split.
  - intros Hout Hreach. rewrite validate_slots_from_people by exact Hreach.
    unfold LF1.validate_slots. slots_get_deleted.
    rewrite Hget. unfold Py.int. rewrite Hint. cbn.
    rewrite outside_range.
    destruct (slots_get slots "reservationTime");
      destruct (Z.leb_spec 1 n), (Z.leb_spec n 10); cbn; try reflexivity; lia.
  - intros Hin.
    assert (Hskip : LF1.validate_slots env slots =
                    LF1.validate_slots env (delete "numberOfPeople" slots)).
    { apply validate_slots_skip with sv; [exact Hget|].
      now apply (people_rule_range _ n). }
    split; [exact Hskip | now apply not_blamed_when_dropped].
Qed.

(** C9. A present reservation date that dateutil reads and that is not in
    the form [strptime] wants with ['%Y-%m-%d'] ("12/25/2026" is one):
    once the location and the cuisine have passed, the validator raises
    [ValueError] instead of returning, and the exception leaves the
    handler. *)
Theorem validate_slots_raises_on_date_format (slots : Slots) (rd : SlotValue) :
  slots_get slots "reservationDate" = Some rd ->
  is_ok (dateutil_parse env (interpretedValue rd)) = true ->
  Py.strptime_ymd_opt (interpretedValue rd) = None ->
  Rules.reaches_date env slots ->
  LF1.validate_slots env slots = Raise ValueError /\
  forall (event : Event) (outbox : Outbox),
    Rules.is_dining event ->
    Rules.in_dialog_phase event ->
    ev_slots event = slots ->
    LF1.lambda_handler env event outbox = (Raise ValueError, outbox).
Proof.
  intros Hget Hok Hfmt Hreach.
  assert (Hraise : LF1.validate_slots env slots = Raise ValueError).
  { rewrite validate_slots_from_date by exact Hreach.
    unfold LF1.validate_slots, LF1.is_valid_date, Py.strptime_ymd.
    slots_get_deleted. rewrite Hget, Hfmt.
    destruct (dateutil_parse env (interpretedValue rd)); [reflexivity | discriminate]. }
  split; [exact Hraise|].
  intros event outbox Hdining Hdialog Hslots.
  rewrite lambda_handler_dining by exact Hdining.
  apply dialog_phase_raises; [exact Hdialog | now rewrite Hslots].
Qed.

(** C10. A present party size that is not an integer literal ("five" is
    one): once the location, the cuisine and the date have passed, the
    validator raises [ValueError] instead of returning, and the exception
    leaves the handler. *)
Theorem validate_slots_raises_on_party_size (slots : Slots) (sv : SlotValue) :
  slots_get slots "numberOfPeople" = Some sv ->
  Py.int_opt (interpretedValue sv) = None ->
  Rules.reaches_people env slots ->
  LF1.validate_slots env slots = Raise ValueError /\
  forall (event : Event) (outbox : Outbox),
    Rules.is_dining event ->
    Rules.in_dialog_phase event ->
    ev_slots event = slots ->
    LF1.lambda_handler env event outbox = (Raise ValueError, outbox).
Proof.
  intros Hget Hint Hreach.
  assert (Hraise : LF1.validate_slots env slots = Raise ValueError).
  { rewrite validate_slots_from_people by exact Hreach.
    unfold LF1.validate_slots, Py.int.
    slots_get_deleted. rewrite Hget, Hint.
    now destruct (slots_get slots "reservationTime"). }
  split; [exact Hraise|].
  intros event outbox Hdining Hdialog Hslots.
  rewrite lambda_handler_dining by exact Hdining.
  apply dialog_phase_raises; [exact Hdialog | now rewrite Hslots].
Qed.

End Fields.

(** ** The responses *)

Section Responses.

Variable env : Env.

(** C2. The session attributes of the event, or the empty mapping when
    there are none, are those of the response: for the greeting, for the
    thank-you, in the dialog phase whenever the validator returns (when it
    raises there is no response), in the fulfillment phase, and so for
    every response of the handler. *)
Theorem session_attributes_echoed (event : Event) (outbox : Outbox) :
  let attrs := default ∅ (ev_sessionAttributes event) in
  sessionAttributes (LF1.greeting_intent event) = attrs /\
  sessionAttributes (LF1.thankyou_intent event) = attrs /\
  (Rules.in_dialog_phase event ->
   match LF1.validate_slots env (ev_slots event) with
   | Ok _ =>
       exists r, LF1.dining_suggestion env event outbox = (Ok (Some r), outbox) /\
                 sessionAttributes r = attrs
   | Raise e => LF1.dining_suggestion env event outbox = (Raise e, outbox)
   end) /\
  (Rules.in_fulfillment_phase event ->
   exists r outbox',
     LF1.dining_suggestion env event outbox = (Ok (Some r), outbox') /\
     sessionAttributes r = attrs) /\
  (forall r outbox',
     LF1.lambda_handler env event outbox = (Ok (Some r), outbox') ->
     sessionAttributes r = attrs).
Proof.
  intros attrs. unfold attrs. rewrite <- session_attributes_of_default.
  assert (Hdialog : Rules.in_dialog_phase event ->
    match LF1.validate_slots env (ev_slots event) with
    | Ok _ =>
        exists r, LF1.dining_suggestion env event outbox = (Ok (Some r), outbox) /\
                  sessionAttributes r = LF1.session_attributes_of event
    | Raise e => LF1.dining_suggestion env event outbox = (Raise e, outbox)
    end).
  { intros Hphase.
    destruct (LF1.validate_slots env (ev_slots event)) as [vr|e] eqn:Hvr;
      [|now apply dialog_phase_raises].
    destruct (isValid vr) eqn:Hvalid.
    - rewrite (dialog_phase_valid env event outbox vr Hphase Hvr Hvalid). eauto.
    - destruct (validate_slots_violation_shape env _ _ Hvr Hvalid)
        as (field & text & ->).
      rewrite (dialog_phase_invalid env event outbox _ _ Hphase Hvr). eauto. }
  assert (Hfulfil : Rules.in_fulfillment_phase event ->
    exists r outbox',
      LF1.dining_suggestion env event outbox = (Ok (Some r), outbox') /\
      sessionAttributes r = LF1.session_attributes_of event).
  { intros Hphase. rewrite fulfillment_phase_eq by exact Hphase. cbn. eauto. }
  repeat split; try reflexivity; try assumption.
  intros r outbox'. unfold LF1.lambda_handler, LF1.dispatch.
  destruct (String.eqb_spec (ev_intent_name event) "DiningSuggestionsIntent")
    as [_|_].
  - destruct (String.eqb_spec (ev_invocationSource event) "DialogCodeHook")
      as [Hd|Hnd].
    + specialize (Hdialog Hd).
      destruct (LF1.validate_slots env (ev_slots event)).
      * destruct Hdialog as (r' & -> & Hr'). now intros [= <- _].
      * rewrite Hdialog. discriminate.
    + destruct (String.eqb_spec (ev_invocationSource event) "FulfillmentCodeHook")
        as [Hf|Hnf].
      * destruct (Hfulfil Hf) as (r' & o' & -> & Hr'). now intros [= <- _].
      * unfold LF1.dining_suggestion.
        apply String.eqb_neq in Hnd, Hnf. rewrite Hnd, Hnf. discriminate.
  - repeat case_match; intros [= <- _]; reflexivity.
Qed.

(** C3. In the dialog phase of the dining flow, with the result of the
    validator at hand: a violation makes the handler put [None] at the
    violated slot and answer [ElicitSlot] for that slot with the
    validator's text; a valid result makes it answer [Delegate], with the
    slot mapping as it came and the state [ReadyForFulfillment]. *)
Theorem dialog_phase_response (event : Event) (outbox : Outbox)
    (vr : ValidationResult) :
  Rules.is_dining event ->
  Rules.in_dialog_phase event ->
  LF1.validate_slots env (ev_slots event) = Ok vr ->
  let attrs := default ∅ (ev_sessionAttributes event) in
  (isValid vr = false ->
   exists field text,
     violatedSlot vr = Some field /\ message vr = Some text /\
     LF1.lambda_handler env event outbox =
       (Ok (Some
          {| sessionAttributes := attrs;
             dialogAction := ElicitSlot (Some field);
             intent := {| name := "DiningSuggestionsIntent";
                          slots := Some (<[field := None]> (ev_slots event));
                          state := None |};
             messages := Some [
               {| contentType := "PlainText"; content := text |} ] |}),
        outbox)) /\
  (isValid vr = true ->
   LF1.lambda_handler env event outbox =
     (Ok (Some
        {| sessionAttributes := attrs;
           dialogAction := Delegate;
           intent := {| name := "DiningSuggestionsIntent";
                        slots := Some (ev_slots event);
                        state := Some "ReadyForFulfillment" |};
           messages := None |}),
      outbox)).
Proof.
  intros Hdining Hphase Hvr attrs. unfold attrs.
  rewrite <- session_attributes_of_default.
  rewrite lambda_handler_dining by exact Hdining.
  unfold Rules.is_dining in Hdining. split; intros Hvalid.
  - destruct (validate_slots_violation_shape env _ _ Hvr Hvalid)
      as (field & text & ->).
    exists field, text. repeat split.
    rewrite (dialog_phase_invalid env event outbox _ _ Hphase Hvr).
    unfold LF1.elicit_slot. now rewrite Hdining.
  - rewrite (dialog_phase_valid env event outbox vr Hphase Hvr Hvalid).
    unfold LF1.delegate. now rewrite Hdining.
Qed.

(** C4. In the fulfillment phase of the dining flow the response is
    [Close] with the state [Fulfilled], whatever the queue did; its text is
    the confirmation when the submission went through and the apology when
    the client or the send raised, and nothing else tells the two apart. *)
Theorem fulfillment_phase_response (event : Event) (outbox : Outbox) :
  Rules.is_dining event ->
  Rules.in_fulfillment_phase event ->
  let request :=
    {| QueueUrl := QUEUE_URL env;
       MessageBody := Rules.reservation_request (ev_slots event) |} in
  let submitted :=
    is_ok (boto3_client env) && is_ok (send_message env request) in
  fst (LF1.sqs_send env (Rules.reservation_request (ev_slots event)) outbox) =
    submitted /\
  exists outbox',
    LF1.lambda_handler env event outbox =
      (Ok (Some
         {| sessionAttributes := default ∅ (ev_sessionAttributes event);
            dialogAction := Close;
            intent := {| name := "DiningSuggestionsIntent";
                         slots := None;
                         state := Some "Fulfilled" |};
            messages := Some [
              {| contentType := "PlainText";
                 content :=
                   if submitted
                   then "Youâ€™re all set. Expect my suggestions shortly! Have a good day."
                   else "Sorry, we are facing some issues. Please try again later." |} ] |}),
       outbox').
Proof.
  intros Hdining Hphase request submitted.
  assert (Hsent :
    fst (LF1.sqs_send env (Rules.reservation_request (ev_slots event)) outbox) =
    submitted).
  { rewrite sqs_send_result. unfold submitted, request. cbn zeta.
    now destruct (boto3_client env). }
  split; [exact Hsent|].
  rewrite lambda_handler_dining by exact Hdining.
  rewrite fulfillment_phase_eq by exact Hphase. cbn zeta.
  rewrite Hsent, session_attributes_of_default.
  unfold Rules.is_dining in Hdining. unfold LF1.close_request.
  rewrite Hdining. eexists. reflexivity.
Qed.

(** C6. In the fulfillment phase of the dining flow, what is handed to
    the queue is one request, whose body is the record of eight entries:
    the type ["Dining"] and the seven slots location, cuisine, time, date,
    party size, email and phone of the event's mapping.  When the client
    cannot be created, nothing is handed over. *)
Theorem fulfillment_submits_reservation_request (event : Event)
    (outbox : Outbox) :
  Rules.is_dining event ->
  Rules.in_fulfillment_phase event ->
  let record :=
    {| ReservationType := "Dining";
       location := slots_get (ev_slots event) "location";
       Cuisine := slots_get (ev_slots event) "cuisine";
       DiningTime := slots_get (ev_slots event) "reservationTime";
       DiningDate := slots_get (ev_slots event) "reservationDate";
       NumberofPeople := slots_get (ev_slots event) "numberOfPeople";
       Email := slots_get (ev_slots event) "email";
       PhoneNumber := slots_get (ev_slots event) "phone_number" |} in
  snd (LF1.lambda_handler env event outbox) =
    if is_ok (boto3_client env)
    then (outbox ++ [ {| QueueUrl := QUEUE_URL env; MessageBody := record |} ])%list
    else outbox.
Proof.
  intros Hdining Hphase record.
  rewrite lambda_handler_dining by exact Hdining.
  rewrite fulfillment_phase_eq by exact Hphase. cbn zeta.
  rewrite sqs_send_result. cbn zeta.
  now destruct (boto3_client env).
Qed.

End Responses.

(** ** The theorems at the sample data *)

Lemma location_validation_witness :
  LF1.lambda_handler Sample.env Sample.queens_event [] =
    (Ok (Some
       {| sessionAttributes := ∅;
          dialogAction := ElicitSlot (Some "location");
          intent := {| name := "DiningSuggestionsIntent";
                       slots := Some (<["location" := None]>
                                        (ev_slots Sample.queens_event));
                       state := None |};
          messages := Some [
            {| contentType := "PlainText";
               content := "We currently do not support Queens. We only support New York (New York, Manhattan, Brooklyn) region. Which location do you want to book for?" |} ] |}),
     []).
Proof.
  pose proof (location_validation Sample.env (ev_slots Sample.queens_event)
                (mkSlot "Queens") eq_refl) as H.
  cbv zeta in H. destruct H as (_ & _ & H).
  apply (H eq_refl Sample.queens_event []); reflexivity.
Defined.

Lemma reservation_date_validation_witness :
  LF1.validate_slots Sample.env (Sample.with_date "someday") =
    Ok {| isValid := false;
          violatedSlot := Some "reservationDate";
          message := Some "Please enter a valid reservation date. When would you like to make your reservation?" |} /\
  (exists text,
     LF1.validate_slots Sample.env (Sample.with_date "2026-11-04") =
       Ok {| isValid := false;
             violatedSlot := Some "reservationDate";
             message := Some text |}) /\
  LF1.validate_slots Sample.env (Sample.with_date "2026-11-05") =
    LF1.validate_slots Sample.env
      (delete "reservationDate" (Sample.with_date "2026-11-05")).
Proof.
  split; [|split].
  - pose proof (reservation_date_validation Sample.env
                  (Sample.with_date "someday") (mkSlot "someday") eq_refl) as H.
    cbv zeta in H. destruct H as (H & _ & _).
    apply H; [reflexivity | split; reflexivity].
  - pose proof (reservation_date_validation Sample.env
                  (Sample.with_date "2026-11-04") (mkSlot "2026-11-04") eq_refl) as H.
    cbv zeta in H. destruct H as (_ & H & _).
    apply (H (Py.mkDate 2026 11 4) true);
      [reflexivity | left; reflexivity | reflexivity | split; reflexivity].
  - pose proof (reservation_date_validation Sample.env
                  (Sample.with_date "2026-11-05") (mkSlot "2026-11-05") eq_refl) as H.
    cbv zeta in H. destruct H as (_ & _ & H).
    apply (H (Py.mkDate 2026 11 5));
      [reflexivity | left; reflexivity | reflexivity].
Defined.

Lemma party_size_validation_witness :
  LF1.validate_slots Sample.env (Sample.with_people "0") =
    Ok {| isValid := false;
          violatedSlot := Some "numberOfPeople";
          message := Some "We accept reservations for up to 10 guests only. How many guests will be attending?" |} /\
  LF1.validate_slots Sample.env (Sample.with_people "11") =
    Ok {| isValid := false;
          violatedSlot := Some "numberOfPeople";
          message := Some "We accept reservations for up to 10 guests only. How many guests will be attending?" |} /\
  LF1.validate_slots Sample.env (Sample.with_people "1") =
    LF1.validate_slots Sample.env
      (delete "numberOfPeople" (Sample.with_people "1")) /\
  LF1.validate_slots Sample.env (Sample.with_people "10") =
    LF1.validate_slots Sample.env
      (delete "numberOfPeople" (Sample.with_people "10")).
Proof.
  split; [|split; [|split]].
  - apply (party_size_validation Sample.env (Sample.with_people "0")
             (mkSlot "0") 0 eq_refl eq_refl); [lia | repeat split; reflexivity].
  - apply (party_size_validation Sample.env (Sample.with_people "11")
             (mkSlot "11") 11 eq_refl eq_refl); [lia | repeat split; reflexivity].
  - apply (party_size_validation Sample.env (Sample.with_people "1")
             (mkSlot "1") 1 eq_refl eq_refl); lia.
  - apply (party_size_validation Sample.env (Sample.with_people "10")
             (mkSlot "10") 10 eq_refl eq_refl); lia.
Defined.

Lemma validate_slots_raises_on_date_format_witness :
  LF1.validate_slots Sample.env (Sample.with_date "12/25/2026") =
    Raise ValueError /\
  LF1.lambda_handler Sample.env
    (Sample.dialog_with (Sample.with_date "12/25/2026")) [] =
    (Raise ValueError, []).
Proof.
  pose proof (validate_slots_raises_on_date_format Sample.env
                (Sample.with_date "12/25/2026") (mkSlot "12/25/2026")
                eq_refl eq_refl eq_refl (conj eq_refl eq_refl)) as [H1 H2].
  split; [exact H1 | apply H2; reflexivity].
Defined.

Lemma validate_slots_raises_on_party_size_witness :
  LF1.validate_slots Sample.env (Sample.with_people "five") =
    Raise ValueError /\
  LF1.lambda_handler Sample.env
    (Sample.dialog_with (Sample.with_people "five")) [] =
    (Raise ValueError, []).
Proof.
  pose proof (validate_slots_raises_on_party_size Sample.env
                (Sample.with_people "five") (mkSlot "five")
                eq_refl eq_refl (conj (conj eq_refl eq_refl) eq_refl)) as [H1 H2].
  split; [exact H1 | apply H2; reflexivity].
Defined.

Lemma session_attributes_echoed_witness :
  (exists r,
     LF1.dining_suggestion Sample.env Sample.dialog_event [] = (Ok (Some r), []) /\
     sessionAttributes r = Sample.attrs) /\
  (exists r outbox',
     LF1.dining_suggestion Sample.env Sample.fulfillment_event [] =
       (Ok (Some r), outbox') /\
     sessionAttributes r = ∅).
Proof.
  split.
  - pose proof (session_attributes_echoed Sample.env Sample.dialog_event []) as H.
    cbv zeta in H. destruct H as (_ & _ & H & _). exact (H eq_refl).
  - pose proof (session_attributes_echoed Sample.env Sample.fulfillment_event [])
      as H.
    cbv zeta in H. destruct H as (_ & _ & _ & H & _). exact (H eq_refl).
Defined.

Lemma dialog_phase_response_witness :
  LF1.lambda_handler Sample.env Sample.dialog_event [] =
    (Ok (Some
       {| sessionAttributes := Sample.attrs;
          dialogAction := Delegate;
          intent := {| name := "DiningSuggestionsIntent";
                       slots := Some Sample.full_slots;
                       state := Some "ReadyForFulfillment" |};
          messages := None |}),
     []) /\
  exists field text,
    LF1.lambda_handler Sample.env
      (Sample.dialog_with (Sample.with_people "11")) [] =
      (Ok (Some
         {| sessionAttributes := Sample.attrs;
            dialogAction := ElicitSlot (Some field);
            intent := {| name := "DiningSuggestionsIntent";
                         slots := Some (<[field := None]> (Sample.with_people "11"));
                         state := None |};
            messages := Some [
              {| contentType := "PlainText"; content := text |} ] |}),
       []).
Proof.
  split.
  - pose proof (dialog_phase_response Sample.env Sample.dialog_event []
                  {| isValid := true; violatedSlot := None; message := None |}
                  eq_refl eq_refl eq_refl) as H.
    cbv zeta in H. destruct H as [_ H]. exact (H eq_refl).
  - pose proof (dialog_phase_response Sample.env
                  (Sample.dialog_with (Sample.with_people "11")) []
                  {| isValid := false;
                     violatedSlot := Some "numberOfPeople";
                     message := Some "We accept reservations for up to 10 guests only. How many guests will be attending?" |}
                  eq_refl eq_refl eq_refl) as H.
    cbv zeta in H. destruct H as [H _].
    destruct (H eq_refl) as (field & text & _ & _ & Hr).
    exists field, text. exact Hr.
Defined.

Lemma fulfillment_phase_response_witness :
  (exists outbox',
     LF1.lambda_handler Sample.env Sample.fulfillment_event [] =
       (Ok (Some
          {| sessionAttributes := ∅;
             dialogAction := Close;
             intent := {| name := "DiningSuggestionsIntent";
                          slots := None;
                          state := Some "Fulfilled" |};
             messages := Some [
               {| contentType := "PlainText";
                  content := "Youâ€™re all set. Expect my suggestions shortly! Have a good day." |} ] |}),
        outbox')) /\
  (exists outbox',
     LF1.lambda_handler Sample.env_down Sample.fulfillment_event [] =
       (Ok (Some
          {| sessionAttributes := ∅;
             dialogAction := Close;
             intent := {| name := "DiningSuggestionsIntent";
                          slots := None;
                          state := Some "Fulfilled" |};
             messages := Some [
               {| contentType := "PlainText";
                  content := "Sorry, we are facing some issues. Please try again later." |} ] |}),
        outbox')).
Proof.
  split.
  - pose proof (fulfillment_phase_response Sample.env Sample.fulfillment_event []
                  eq_refl eq_refl) as H.
    cbv zeta in H. destruct H as [_ H]. exact H.
  - pose proof (fulfillment_phase_response Sample.env_down
                  Sample.fulfillment_event [] eq_refl eq_refl) as H.
    cbv zeta in H. destruct H as [_ H]. exact H.
Defined.

Lemma fulfillment_submits_reservation_request_witness :
  snd (LF1.lambda_handler Sample.env Sample.fulfillment_event []) =
    [ {| QueueUrl := Some "https://sqs.us-east-1.amazonaws.com/000000000000/dining";
         MessageBody :=
           {| ReservationType := "Dining";
              location := Sample.slot "Manhattan";
              Cuisine := Sample.slot "Indian";
              DiningTime := Sample.slot "19:00";
              DiningDate := Sample.slot "2026-11-05";
              NumberofPeople := Sample.slot "4";
              Email := Sample.slot "a@b.com";
              PhoneNumber := Sample.slot "2125550100" |} |} ].
Proof.
  exact (fulfillment_submits_reservation_request Sample.env
           Sample.fulfillment_event [] eq_refl eq_refl).
Defined.

(** ** Further properties of the validator *)

Section ValidatorFurther.

Variable env : Env.

(** X1. Whenever the validator returns, its result names the first
    present field, in the order location, cuisine, date, party size,
    email, that breaks its rule, and [isValid] holds exactly when no
    present field does. *)
Theorem validator_reports_first_violation (slots : Slots)
    (vr : ValidationResult) :
  LF1.validate_slots env slots = Ok vr ->
  violatedSlot vr = Rules.first_violation env slots /\
  (isValid vr = true <-> Rules.first_violation env slots = None) /\
  (forall field, violatedSlot vr = Some field ->
     In field Rules.field_order /\ Rules.violates env slots field = true).
Proof.
  intros Hvr.
  destruct (validate_slots_first_violation env slots vr Hvr) as [Hslot Hvalid].
  split; [exact Hslot | split].
  - rewrite Hvalid. destruct (Rules.first_violation env slots); split;
      intros H; congruence.
  - intros field Hf. rewrite Hslot in Hf.
    unfold Rules.first_violation in Hf. now apply find_some in Hf.
Qed.

(** With no violation among the present fields, the two conversions of
    the validator go through. *)
Lemma first_violation_none_convertible (slots : Slots) :
  Rules.first_violation env slots = None ->
  Rules.date_convertible env slots = true /\
  Rules.people_convertible slots = true.
Proof.
  intros Hnone.
  assert (Hall : forall field, In field Rules.field_order ->
                   Rules.violates env slots field = false).
  { intros field Hin. unfold Rules.first_violation in Hnone.
    apply (find_none _ _ Hnone field) in Hin. exact Hin. }
  split.
  - pose proof (Hall "reservationDate" ltac:(cbn; tauto)) as Hdate.
    rewrite violates_date in Hdate. unfold Rules.date_convertible.
    destruct (slots_get slots "reservationDate") as [rd|]; [|reflexivity].
    apply negb_false_iff in Hdate. unfold Rules.date_rule in Hdate.
    destruct (dateutil_parse env (interpretedValue rd)); [|discriminate].
    destruct (Py.strptime_ymd_opt (interpretedValue rd)); [|discriminate].
    apply bool_decide_eq_true. eauto.
  - pose proof (Hall "numberOfPeople" ltac:(cbn; tauto)) as Hpeople.
    rewrite violates_people in Hpeople. unfold Rules.people_convertible.
    destruct (slots_get slots "numberOfPeople") as [n|]; [|reflexivity].
    apply negb_false_iff in Hpeople. unfold Rules.people_rule in Hpeople.
    destruct (Py.int_opt (interpretedValue n)); [|discriminate].
    apply bool_decide_eq_true. eauto.
Qed.

(** X2. When no present field breaks its rule, the validator returns
    the valid result: it does not raise.  A mapping without any of the
    five fields is one such case. *)
Theorem validate_slots_valid_when_rules_hold (slots : Slots) :
  Rules.first_violation env slots = None ->
  LF1.validate_slots env slots =
    Ok {| isValid := true; violatedSlot := None; message := None |}.
Proof.
  intros Hnone.
  destruct (first_violation_none_convertible slots Hnone) as [Hdate Hpeople].
  destruct (validate_slots_returns env slots Hdate Hpeople) as [vr Hvr].
  destruct (validate_slots_first_violation env slots vr Hvr) as [_ Hvalid].
  rewrite Hnone in Hvalid. rewrite Hvr. f_equal.
  now apply (validate_slots_valid_shape env slots).
Qed.


(** X4. The outcome depends on the five validated slots only: two
    mappings that agree on them, whatever they hold for the time, the
    phone number or any other key, get the same answer. *)
Theorem validate_slots_reads_five_fields (slots1 slots2 : Slots) :
  (forall field, In field Rules.field_order ->
     slots_get slots1 field = slots_get slots2 field) ->
  LF1.validate_slots env slots1 = LF1.validate_slots env slots2.
Proof.
  intros Hagree. unfold LF1.validate_slots.
  rewrite (Hagree "location"), (Hagree "cuisine"), (Hagree "reservationDate"),
    (Hagree "numberOfPeople"), (Hagree "email") by (cbn; tauto).
  now destruct (slots_get slots1 "reservationTime"),
    (slots_get slots2 "reservationTime").
Qed.

(** X5. A present cuisine is let through exactly when its lower-case
    form is one of the ten cuisines on offer; otherwise, once the location
    has passed, the answer is a violation of [cuisine] whose text names
    the value as it was given. *)
Theorem cuisine_validation (slots : Slots) (sv : SlotValue) :
  slots_get slots "cuisine" = Some sv ->
  let v := interpretedValue sv in
  let listed :=
    In (Py.lower v)
       ["indian"; "desi"; "american"; "vegetarian"; "seafood"; "chinese";
        "korean"; "mexican"; "mediterranean"; "vegan"] in
  (listed ->
   LF1.validate_slots env slots = LF1.validate_slots env (delete "cuisine" slots) /\
   forall vr, LF1.validate_slots env slots = Ok vr ->
              violatedSlot vr <> Some "cuisine") /\
  (~ listed ->
   Rules.violates env slots "location" = false ->
   LF1.validate_slots env slots =
     Ok {| isValid := false;
           violatedSlot := Some "cuisine";
           message := Some ("We currently do not offer " ++ v ++
                            " cuisine. Can you try a different one?") |}).
Proof.
  intros Hget v listed.
  assert (Hlisted : LF1.is_valid_cuisine v = true <-> listed)
    by apply contains_In.
  split.
  - intros Hin.
    assert (Hskip : LF1.validate_slots env slots =
                    LF1.validate_slots env (delete "cuisine" slots)).
    { apply validate_slots_skip with sv; [exact Hget|]. now apply Hlisted. }
    split; [exact Hskip | now apply not_blamed_when_dropped].
  - intros Hout Hloc.
    rewrite (validate_slots_drop env slots "location") by exact Hloc.
    unfold LF1.validate_slots. slots_get_deleted. rewrite Hget. fold v.
    destruct (LF1.is_valid_cuisine v); [|reflexivity].
    exfalso. apply Hout, Hlisted. reflexivity.
Qed.

End ValidatorFurther.

(** ** Further properties of the email check *)

Section EmailFurther.

Lemma append_assoc (s t u : string) : (s ++ t) ++ u = s ++ t ++ u.
Proof.
  induction s as [|a s IH]; [reflexivity|].
  change (String a ((s ++ t) ++ u) = String a (s ++ t ++ u)). now rewrite IH.
Qed.

Lemma star_notchr (c : ascii) (s : string) :
  Py.in_lang (Py.Star (Py.NotChr c)) s <-> Py.has_char c s = false.
Proof.
  induction s as [|a s IH]; cbn.
  - split; [reflexivity | constructor].
  - rewrite orb_false_iff, <- IH. split.
    + intros H.
      destruct (star_head _ _ H a s eq_refl) as (s1 & s2 & -> & H1 & H2).
      apply in_notchr_inv in H1 as (b & Hb & Heq).
      injection Heq as -> ->. split; [now apply Ascii.eqb_neq | exact H2].
    + intros [Ha Hs]. change (String a s) with (String a "" ++ s).
      constructor; [|exact Hs]. constructor. now apply Ascii.eqb_neq.
Qed.

Lemma plus_notchr (c : ascii) (s : string) :
  Py.in_lang (Py.Plus (Py.NotChr c)) s <->
  s <> "" /\ Py.has_char c s = false.
Proof.
  unfold Py.Plus. split.
  - intros H. apply in_seq_inv in H as (s1 & s2 & -> & H1 & H2).
    apply in_notchr_inv in H1 as (a & Ha & ->).
    apply star_notchr in H2. split; [discriminate|].
    change (String a "" ++ s2) with (String a s2). cbn.
    rewrite H2, orb_false_r. now apply Ascii.eqb_neq.
  - intros [Hne Hfree]. destruct s as [|a s]; [congruence|].
    cbn in Hfree. apply orb_false_iff in Hfree as [Ha Hs].
    change (String a s) with (String a "" ++ s).
    constructor; [|now apply star_notchr].
    constructor. now apply Ascii.eqb_neq.
Qed.

(** The words of the email pattern. *)
Lemma email_regex_words (p : string) :
  Py.in_lang LF1.email_regex p <->
  exists x y z,
    p = x ++ "@" ++ y ++ "." ++ z /\
    x <> "" /\ y <> "" /\ z <> "" /\
    Py.has_char "@" x = false /\
    Py.has_char "@" y = false /\
    Py.has_char "@" z = false.
Proof.
  unfold LF1.email_regex. split.
  - intros H.
    apply in_seq_inv in H as (x & p1 & -> & Hx & H).
    apply in_seq_inv in H as (a & p2 & -> & Ha & H).
    apply in_seq_inv in H as (y & p3 & -> & Hy & H).
    apply in_seq_inv in H as (d & z & -> & Hd & Hz).
    apply in_chr_inv in Ha, Hd. subst a d.
    apply plus_notchr in Hx as [Hx1 Hx2], Hy as [Hy1 Hy2], Hz as [Hz1 Hz2].
    exists x, y, z. repeat split; assumption.
  - intros (x & y & z & -> & Hx & Hy & Hz & Hfx & Hfy & Hfz).
    repeat constructor; apply plus_notchr; now split.
Qed.

(** X6. The email check accepts exactly the strings that start with
    [x@y.z], where [x], [y] and [z] are non-empty and hold no [@];
    whatever follows is not looked at. *)
Theorem is_valid_email_shape (email : string) :
  LF1.is_valid_email email = true <->
  exists x y z rest,
    email = x ++ "@" ++ y ++ "." ++ z ++ rest /\
    x <> "" /\ y <> "" /\ z <> "" /\
    Py.has_char "@" x = false /\
    Py.has_char "@" y = false /\
    Py.has_char "@" z = false.
Proof.
  rewrite is_valid_email_prefix. split.
  - intros (p & q & -> & H).
    apply email_regex_words in H as (x & y & z & -> & H).
    exists x, y, z, q. split; [|exact H].
    now rewrite !append_assoc.
  - intros (x & y & z & rest & -> & H).
    exists (x ++ "@" ++ y ++ "." ++ z), rest. split.
    + now rewrite !append_assoc.
    + apply email_regex_words. exists x, y, z. now split.
Qed.

End EmailFurther.

(** ** Further properties of the handlers *)

Section HandlersFurther.

Variable env : Env.

(** X7. The handler ends without a response exactly when the intent is
    none of the three it knows, or when the dining intent comes with an
    invocation source that is neither of the two code hooks. *)
Theorem handler_answers_nothing_iff (event : Event) (outbox : Outbox) :
  fst (LF1.lambda_handler env event outbox) = Ok None <->
  (ev_intent_name event <> "DiningSuggestionsIntent" /\
   ev_intent_name event <> "GreetingIntent" /\
   ev_intent_name event <> "ThankYouIntent") \/
  (ev_intent_name event = "DiningSuggestionsIntent" /\
   ev_invocationSource event <> "DialogCodeHook" /\
   ev_invocationSource event <> "FulfillmentCodeHook").
Proof.
  unfold LF1.lambda_handler, LF1.dispatch, LF1.dining_suggestion. cbn zeta.
  destruct (String.eqb_spec (ev_intent_name event) "DiningSuggestionsIntent")
    as [Hd|Hd].
  - destruct (String.eqb_spec (ev_invocationSource event) "DialogCodeHook")
      as [Hp|Hp].
    + cbn [fst]. split; [|intros [(? & _)|(_ & ? & _)]; congruence].
      destruct (LF1.validate_slots env (ev_slots event)) as [vr|]; cbn;
        [|discriminate].
      repeat case_match; discriminate.
    + destruct (String.eqb_spec (ev_invocationSource event) "FulfillmentCodeHook")
        as [Hf|Hf].
      * destruct (LF1.sqs_send env _ outbox). cbn.
        split; [discriminate | intros [(? & _)|(_ & _ & ?)]; congruence].
      * cbn. split; [intros _; right; auto | reflexivity].
  - destruct (String.eqb_spec (ev_intent_name event) "GreetingIntent") as [Hg|Hg];
      [|destruct (String.eqb_spec (ev_intent_name event) "ThankYouIntent")
          as [Ht|Ht]]; cbn.
    + split; [discriminate | intros [(_ & ? & _)|(? & _)]; congruence].
    + split; [discriminate | intros [(_ & _ & ?)|(? & _)]; congruence].
    + split; [intros _; left; auto | reflexivity].
Qed.

(** X8. A call hands at most one request to the queue, and none at all
    unless it is the fulfillment phase of the dining intent: greeting,
    thank-you and dialog phase leave the queue alone, also when the
    validator raises. *)
Theorem only_fulfillment_sends (event : Event) (outbox : Outbox) :
  (exists extra,
     snd (LF1.lambda_handler env event outbox) = (outbox ++ extra)%list /\
     (length extra <= 1)%nat) /\
  (~ (Rules.is_dining event /\ Rules.in_fulfillment_phase event) ->
   snd (LF1.lambda_handler env event outbox) = outbox).
Proof.
  assert (Hsame : forall o : Outbox, o = outbox ->
            exists extra, o = (outbox ++ extra)%list /\ (length extra <= 1)%nat).
  { intros o ->. exists []. rewrite app_nil_r. cbn. auto. }
  unfold Rules.is_dining, Rules.in_fulfillment_phase.
  unfold LF1.lambda_handler, LF1.dispatch, LF1.dining_suggestion. cbn zeta.
  destruct (String.eqb_spec (ev_intent_name event) "DiningSuggestionsIntent")
    as [Hd|Hd];
    [|repeat case_match; cbn; split; auto].
  destruct (String.eqb_spec (ev_invocationSource event) "DialogCodeHook")
    as [Hp|Hp]; [cbn; split; auto|].
  destruct (String.eqb_spec (ev_invocationSource event) "FulfillmentCodeHook")
    as [Hf|Hf]; [|cbn; split; auto].
  rewrite sqs_send_result. cbn zeta.
  destruct (boto3_client env); cbn; split; auto; try tauto.
  eexists. split; [reflexivity | cbn; lia].
Qed.

(** X9. The handler keeps no record of what it has sent: running the
    fulfillment phase again on the same event hands the same request to
    the queue a second time. *)
Theorem retried_fulfillment_sends_again (event : Event) (outbox : Outbox) :
  Rules.is_dining event ->
  Rules.in_fulfillment_phase event ->
  is_ok (boto3_client env) = true ->
  let request :=
    {| QueueUrl := QUEUE_URL env;
       MessageBody := Rules.reservation_request (ev_slots event) |} in
  snd (LF1.lambda_handler env event
         (snd (LF1.lambda_handler env event outbox))) =
    (outbox ++ [request; request])%list.
Proof.
  intros Hdining Hphase Hclient request.
  rewrite !lambda_handler_dining by exact Hdining.
  rewrite !fulfillment_phase_eq by exact Hphase. cbn zeta.
  rewrite !sqs_send_result. cbn zeta. rewrite Hclient. cbn [snd].
  now rewrite <- app_assoc.
Qed.

(** X10. After a violation the dialog phase answers with the mapping in
    which the violated slot is [None] and every other entry is as it
    came.  In that mapping the slot is absent for the validator: it is not
    blamed again, and no field violates that did not violate before. *)
Theorem elicit_slot_clears_violation (event : Event) (outbox : Outbox)
    (field text : string) :
  Rules.in_dialog_phase event ->
  LF1.validate_slots env (ev_slots event) =
    Ok {| isValid := false; violatedSlot := Some field; message := Some text |} ->
  let slots' := <[field := None]> (ev_slots event) in
  (exists r,
     LF1.dining_suggestion env event outbox = (Ok (Some r), outbox) /\
     slots (intent r) = Some slots') /\
  slots_get slots' field = None /\
  (forall k, k <> field -> slots' !! k = ev_slots event !! k) /\
  (forall k, Rules.violates env slots' k = true ->
     k <> field /\ Rules.violates env (ev_slots event) k = true) /\
  (forall vr, LF1.validate_slots env slots' = Ok vr ->
     violatedSlot vr <> Some field).
Proof.
  intros Hphase Hvr slots'.
  assert (Hget : forall k, slots_get slots' k =
                   if decide (field = k) then None else slots_get (ev_slots event) k)
    by (intros k; apply slots_get_insert_None).
  assert (Hviol : forall k, Rules.violates env slots' k = true ->
            k <> field /\ Rules.violates env (ev_slots event) k = true).
  { intros k. unfold Rules.violates. rewrite Hget.
    case_decide; [discriminate | auto]. }
  split; [|split; [|split; [|split]]].
  - rewrite (dialog_phase_invalid env event outbox _ _ Hphase Hvr).
    eexists. split; reflexivity.
  - rewrite Hget. now case_decide.
  - intros k Hk. unfold slots'. now rewrite lookup_insert_ne.
  - exact Hviol.
  - intros vr Hvr' Hblame.
    destruct (validate_slots_first_violation env slots' vr Hvr') as [Hslot _].
    rewrite Hblame in Hslot. symmetry in Hslot.
    unfold Rules.first_violation in Hslot. apply find_some in Hslot as [_ Hslot].
    apply Hviol in Hslot as [Hne _]. congruence.
Qed.


End HandlersFurther.

(** ** The further theorems at the sample data *)

Lemma validator_reports_first_violation_witness :
  Some "numberOfPeople" =
    Rules.first_violation Sample.env (Sample.with_people "11").
Proof.
  exact (proj1 (validator_reports_first_violation Sample.env
           (Sample.with_people "11")
           {| isValid := false;
              violatedSlot := Some "numberOfPeople";
              message := Some "We accept reservations for up to 10 guests only. How many guests will be attending?" |}
           eq_refl)).
Defined.

Lemma validate_slots_valid_when_rules_hold_witness :
  LF1.validate_slots Sample.env Sample.full_slots =
    Ok {| isValid := true; violatedSlot := None; message := None |} /\
  LF1.validate_slots Sample.env ∅ =
    Ok {| isValid := true; violatedSlot := None; message := None |}.
Proof.
  split.
  - exact (validate_slots_valid_when_rules_hold Sample.env Sample.full_slots
             eq_refl).
  - exact (validate_slots_valid_when_rules_hold Sample.env ∅ eq_refl).
Defined.


Lemma validate_slots_reads_five_fields_witness :
  LF1.validate_slots Sample.env Sample.full_slots =
  LF1.validate_slots Sample.env
    (<["reservationTime" := Sample.slot "whenever"]>
       (<["phone_number" := None]> Sample.full_slots)).
Proof.
  apply (validate_slots_reads_five_fields Sample.env).
  intros field [<- | [<- | [<- | [<- | [<- | []]]]]]; reflexivity.
Defined.

Lemma cuisine_validation_witness :
  LF1.validate_slots Sample.env
    (<["cuisine" := Sample.slot "Thai"]> Sample.full_slots) =
    Ok {| isValid := false;
          violatedSlot := Some "cuisine";
          message := Some "We currently do not offer Thai cuisine. Can you try a different one?" |} /\
  LF1.validate_slots Sample.env Sample.full_slots =
    LF1.validate_slots Sample.env (delete "cuisine" Sample.full_slots).
Proof.
  split.
  - pose proof (cuisine_validation Sample.env
                  (<["cuisine" := Sample.slot "Thai"]> Sample.full_slots)
                  (mkSlot "Thai") eq_refl) as H.
    cbv zeta in H. destruct H as [_ H]. apply H; [|reflexivity].
    cbn. intros H'. repeat (destruct H' as [H'|H']; [discriminate|]). exact H'.
  - pose proof (cuisine_validation Sample.env Sample.full_slots
                  (mkSlot "Indian") eq_refl) as H.
    cbv zeta in H. destruct H as [H _]. apply H. cbn. auto.
Defined.

Lemma is_valid_email_shape_witness :
  LF1.is_valid_email "a@b.com, or so" = true.
Proof.
  apply is_valid_email_shape. exists "a", "b", "com", ", or so".
  repeat split; discriminate.
Defined.

Lemma handler_answers_nothing_iff_witness :
  fst (LF1.lambda_handler Sample.env
         (Sample.event_of "OrderPizzaIntent" "DialogCodeHook" Sample.full_slots)
         []) = Ok None /\
  fst (LF1.lambda_handler Sample.env
         (Sample.event_of "DiningSuggestionsIntent" "Warmup" Sample.full_slots)
         []) = Ok None.
Proof.
  split.
  - apply handler_answers_nothing_iff. left. repeat split; discriminate.
  - apply handler_answers_nothing_iff. right. repeat split; discriminate.
Defined.

Lemma only_fulfillment_sends_witness :
  snd (LF1.lambda_handler Sample.env
         (Sample.event_of "GreetingIntent" "FulfillmentCodeHook" Sample.full_slots)
         []) = [].
Proof.
  apply (only_fulfillment_sends Sample.env
           (Sample.event_of "GreetingIntent" "FulfillmentCodeHook"
              Sample.full_slots) []).
  intros [H _]. discriminate.
Defined.

Lemma retried_fulfillment_sends_again_witness :
  length (snd (LF1.lambda_handler Sample.env Sample.fulfillment_event
                 (snd (LF1.lambda_handler Sample.env Sample.fulfillment_event
                         [])))) = 2%nat.
Proof.
  rewrite (retried_fulfillment_sends_again Sample.env Sample.fulfillment_event
             [] eq_refl eq_refl eq_refl).
  reflexivity.
Defined.

Lemma elicit_slot_clears_violation_witness :
  slots_get (<["numberOfPeople" := None]> (Sample.with_people "11"))
    "numberOfPeople" = None.
Proof.
  pose proof (elicit_slot_clears_violation Sample.env
                (Sample.dialog_with (Sample.with_people "11")) []
                "numberOfPeople"
                "We accept reservations for up to 10 guests only. How many guests will be attending?"
                eq_refl eq_refl) as H.
  cbv zeta in H. destruct H as (_ & H & _). exact H.
Defined.


